(** * salt-extensions-metadata: the PyPI crawler and its cache

    A shallow embedding of [scripts/query-pypi.py] (the crawler) and of
    [scripts/refresh-metadata.py] (the renderer that reads the cache).

    Conventions of the embedding.
    - A [pathlib.Path] is the list of its components; [p / name] appends one
      component.  Package names are taken to be single components.
    - The file system is a finite map from paths to contents.  The msgpack
      codec is not unfolded: a file written with [msgpack.packb x] holds [x],
      and [msgpack.unpackb] gives it back.
    - JSON and msgpack data are values of type [value]; floats do not occur in
      any field the two scripts read and are left out.
    - Python exceptions are the [None] result of the monad [M]; the state
      reached when the exception was raised is kept.
    - The tqdm progress bar and its messages are not represented. *)

From Stdlib Require Import ZArith String Ascii List Bool Lia.
From stdpp Require Import gmap strings list fin_maps sorting pretty.

Local Open Scope Z_scope.
Set Warnings "-register-all".

(** ** Python values *)

Inductive value : Type :=
| VNone
| VBool (b : bool)
| VInt (z : Z)
| VStr (s : string)
| VList (l : list value)
| VDict (d : list (string * value)).

(** Python truthiness, as used by [if x:] and [not x]. *)
Definition truthy (v : value) : bool :=
  match v with
  | VNone => false
  | VBool b => b
  | VInt z => negb (z =? 0)
  | VStr s => negb (String.eqb s "")
  | VList l => match l with [] => false | _ => true end
  | VDict d => match d with [] => false | _ => true end
  end.

(** [d.get(k)] on the association list of a decoded object. *)
Fixpoint assoc (k : string) (d : list (string * value)) : option value :=
  match d with
  | [] => None
  | (k', v) :: d' => if String.eqb k k' then Some v else assoc k d'
  end.

(** [v[k]]: [None] stands for the KeyError or TypeError Python raises. *)
Definition subscript (v : value) (k : string) : option value :=
  match v with
  | VDict d => assoc k d
  | _ => None
  end.

(** [v.get(k)] with the default [None]; fails on anything but a dict. *)
Definition dict_get (v : value) (k : string) : option value :=
  match v with
  | VDict d => Some (default VNone (assoc k d))
  | _ => None
  end.

(** [needle in hay] for two strings: substring search. *)
Fixpoint contains (needle hay : string) : bool :=
  String.prefix needle hay ||
  match hay with
  | EmptyString => false
  | String _ hay' => contains needle hay'
  end.

(** [s in v]: substring of a string, element of a list, key of a dict;
    [None] is the TypeError raised for values that are not containers. *)
Definition py_in (s : string) (v : value) : option bool :=
  match v with
  | VStr hay => Some (contains s hay)
  | VList l =>
      Some (existsb (fun x => match x with VStr t => String.eqb s t | _ => false end) l)
  | VDict d => Some (existsb (fun kv => String.eqb s (fst kv)) d)
  | _ => None
  end.

(** [s.startswith(prefixes)] with a tuple of prefixes. *)
Definition startswith (s : string) (prefixes : list string) : bool :=
  existsb (fun p => String.prefix p s) prefixes.

(** ** Paths and files *)

Definition path : Type := list string.

Definition joinpath (p : path) (name : string) : path := p ++ [name].

(** The per-package entry of the index: a dict with the keys ["etag"] and
    ["not-found"]. *)
Abbreviation package_info := (gmap string value).

(** The cached index, [index_info]: the keys ["etag"], ["sha256sum"] and
    ["packages"]. *)
Record index : Type := Index {
  index_etag : option string;
  index_sha256sum : option string;
  packages : gmap string package_info
}.

Inductive content : Type :=
| PackedIndex (i : index)
| PackedData (v : value)
| Text (s : string).

Abbreviation filesystem := (gmap path content).

(** [name.endswith(suf)] *)
Fixpoint ends_with (suf s : string) : bool :=
  String.eqb s suf ||
  match s with
  | EmptyString => false
  | String _ s' => ends_with suf s'
  end.

(** The part of [s] before its last dot, when it has one. *)
Fixpoint before_last_dot (s : string) : option string :=
  match s with
  | EmptyString => None
  | String a s' =>
      match before_last_dot s' with
      | Some r => Some (String a r)
      | None => if Ascii.eqb a "." then Some EmptyString else None
      end
  end.

(** [PurePath.stem]: the name without its last suffix; a dot in first or in
    last position does not start a suffix. *)
Definition stem (name : string) : string :=
  match name with
  | EmptyString => name
  | String a s' =>
      match before_last_dot s' with
      | Some r => if Nat.eqb (S (String.length r)) (String.length s') then name
                  else String a r
      | None => name
      end
  end.

(** [child_of dir p] is [Some name] when [p] is [dir / name]. *)
Fixpoint child_of (dir p : path) : option string :=
  match dir, p with
  | [], [name] => Some name
  | d :: dir', c :: p' => if decide (d = c) then child_of dir' p' else None
  | _, _ => None
  end.

(** [dir.glob("*.msgpack")]: the names of the files of [dir] that match. *)
Definition glob_msgpack (dir : path) (fs : filesystem) : list string :=
  filter (λ name, ends_with ".msgpack" name = true)
         (omap (child_of dir) (map_to_list fs).*1).

(** [sorted] on names. *)
Definition sorted (names : list string) : list string :=
  merge_sort String.le names.

(** ** HTTP *)

Abbreviation headers := (gmap string string).

Record request : Type := Get { url : string; request_headers : headers }.

Record response : Type := Response {
  status_code : Z;
  (** [headers.get("etag")] *)
  response_etag : option string;
  (** [int(headers["Content-Length"])], [None] when that raises *)
  content_length : option Z;
  (** [tree.xpath("//a/text()")] over the body; [None] when parsing raises *)
  anchors : option (list string);
  (** [req.json()]; [None] when decoding raises *)
  json : option value
}.

Inductive outcome : Type :=
| Responded (r : response)
| TimedOut    (* httpx.TimeoutException, trio.ClosedResourceError *)
| Raised.     (* any other exception *)

Abbreviation session := (request → outcome).

(** ** The state and exception monad *)

Record world : Type := World {
  files : filesystem;
  sent : list request
}.

Definition M (S A : Type) : Type := S → option A * S.

Global Instance M_ret {S} : MRet (M S) := λ A a s, (Some a, s).
Global Instance M_bind {S} : MBind (M S) := λ A B k m s,
  match m s with
  | (Some a, s') => k a s'
  | (None, s') => (None, s')
  end.
Definition raise {S A} : M S A := λ s, (None, s).
Definition gets {S A} (f : S → A) : M S A := λ s, (Some (f s), s).
Definition modify {S} (f : S → S) : M S unit := λ s, (Some tt, f s).
(** [try: m  except Exception: pass] *)
Definition try_except {S} (m : M S unit) : M S unit := λ s,
  match m s with
  | (Some a, s') => (Some a, s')
  | (None, s') => (Some tt, s')
  end.
(** [try: m  finally: f] *)
Definition try_finally {S A} (m : M S A) (f : M S unit) : M S A := λ s,
  match m s with
  | (r, s') => match f s' with
               | (Some _, s'') => (r, s'')
               | (None, s'') => (None, s'')
               end
  end.
Definition lift_option {S A} (o : option A) : M S A :=
  match o with Some a => mret a | None => raise end.

Section world_operations.
Context {X : Type}.

(** The functions below run on a state [X * world]: the Python object they
    mutate (the index or one of its entries) and the outside world. *)
Definition the_object : M (X * world) X := gets fst.
Definition update_object (f : X → X) : M (X * world) unit :=
  modify (fun s => (f (fst s), snd s)).
Definition send (r : request) : M (X * world) unit :=
  modify (fun s => (fst s, World (files (snd s)) (sent (snd s) ++ [r]))).
Definition read (p : path) : M (X * world) (option content) :=
  gets (fun s => files (snd s) !! p).
Definition write (p : path) (c : content) : M (X * world) unit :=
  modify (fun s => (fst s, World (<[p := c]> (files (snd s))) (sent (snd s)))).
(** [if p.exists(): p.unlink()] *)
Definition unlink_if_exists (p : path) : M (X * world) unit :=
  modify (fun s => (fst s, World (delete p (files (snd s))) (sent (snd s)))).
End world_operations.

(** Run a computation on the entry [k] of a map held in the state: the entry
    is the same Python object as the one stored in the map. *)
Definition on_entry {A} (k : string) (m : M (package_info * world) A)
    : M (index * world) A :=
  fun s =>
    let i := fst s in
    match packages i !! k with
    | None => (None, s)
    | Some e =>
        match m (e, snd s) with
        | (r, (e', w')) =>
            (r, (Index (index_etag i) (index_sha256sum i) (<[k := e']> (packages i)), w'))
        end
    end.

(** ** [scripts/query-pypi.py] *)

Module QueryPypi.

Record options : Type := Options { fast : bool; no_progress : bool }.

(** The result of [subprocess.run] on the sha256 command: the return code
    and the standard output. *)
Record completed : Type := Completed { returncode : Z; stdout : string }.

Definition PACKAGE_NAME_PREFIXES : list string :=
  ["salt-ext-"; "saltext-"; "saltext."].

Section crawler.
(** [LOCAL_CACHE_PATH] and [STATE_DIR] depend on the environment and on
    where the script lives; the include and exclude lists are read from
    [data/*.yaml]. *)
Variable LOCAL_CACHE_PATH : path.
Variable STATE_DIR : path.
Variable KNOWN_SALT_EXTENSIONS : gset string.
Variable KNOWN_NOT_SALT_EXTENSIONS : gset string.
(** [get_sha256_command()] followed by [subprocess.run]; [None] when no
    sha256 command is found and the exception is raised. *)
Variable sha256_run : option completed.
(** [hash((key, repr(value)))] *)
Variable py_hash : string → value → Z.

Definition PACKAGE_INFO_CACHE : path := joinpath LOCAL_CACHE_PATH "packages-info".

Definition package_info_cache (package : string) : path :=
  joinpath PACKAGE_INFO_CACHE (package +:+ ".msgpack").

Definition package_url (package : string) : string :=
  "https://pypi.org/pypi/" +:+ package +:+ "/json".

(** The [headers] dict built from a stored etag: the header is set when
    the etag is truthy; a truthy etag that is not a string is refused by
    httpx when the request is built. *)
Definition conditional_headers (etag : value) : option headers :=
  if truthy etag then
    match etag with
    | VStr e => Some {[ "If-None-Match" := e ]}
    | _ => None
    end
  else Some ∅.

(** [package_info.get("not-found")] taken as a condition. *)
Definition marked_not_found (entry : package_info) : bool :=
  truthy (default VNone (entry !! "not-found")).

Definition optional_str (o : option string) : value :=
  match o with Some s => VStr s | None => VNone end.

(** The classification of lines 291-308; [None] when reading
    [data["info"]["keywords"]] raises. *)
Definition is_salt_extension (package : string) (data : value) : option bool :=
  if decide (package ∈ KNOWN_SALT_EXTENSIONS) then Some true
  else if decide (package ∉ KNOWN_NOT_SALT_EXTENSIONS) then
    if startswith package PACKAGE_NAME_PREFIXES then Some true
    else
      info ← subscript data "info";
      keywords ← subscript info "keywords";
      if truthy keywords then py_in "salt-extension" keywords
      else Some false
  else Some false.

(** The classification in the words of the specification: included, or
    not excluded and either name-prefixed or tagged in the keywords. *)
Definition keywords_mention_salt_extension (data : value) : bool :=
  match subscript data "info" ≫= (λ info, subscript info "keywords") with
  | Some keywords => default false (py_in "salt-extension" keywords)
  | None => false
  end.

Definition classified_as_salt_extension (package : string) (data : value) : bool :=
  bool_decide (package ∈ KNOWN_SALT_EXTENSIONS) ||
  (bool_decide (package ∉ KNOWN_NOT_SALT_EXTENSIONS) &&
   (startswith package PACKAGE_NAME_PREFIXES ||
    keywords_mention_salt_extension data)).

Definition download_package_info (s : session) (package : string)
    : M (package_info * world) unit :=
  try_finally
    (let package_info_cache := package_info_cache package in
     package_info ← the_object;
     if marked_not_found package_info then
       unlink_if_exists package_info_cache
     else
       let url := package_url package in
       let etag := default VNone (package_info !! "etag") in
       headers ← lift_option (conditional_headers etag);
       send (Get url headers);;
       match s (Get url headers) with
       | Raised => raise
       | TimedOut => mret tt
       | Responded req =>
           update_object (insert "etag" (optional_str (response_etag req)));;
           if decide (status_code req = 304) then mret tt
           else if decide (status_code req ≠ 200) then
             (if decide (status_code req = 404)
              then update_object (insert "not-found" (VBool true))
              else mret tt);;
             unlink_if_exists package_info_cache
           else
             data ← lift_option (json req);
             if negb (truthy data) then unlink_if_exists package_info_cache
             else
               try_except
                 (salt_extension ← lift_option (is_salt_extension package data);
                  if salt_extension : bool
                  then write package_info_cache (PackedData data)
                  else unlink_if_exists package_info_cache)
       end)
    (mret tt).

(** The requests a lookup sends, as lines 248-263 decide them from the
    stored entry. *)
Definition requests_of (package : string) (entry : package_info) : list request :=
  if marked_not_found entry then []
  else match conditional_headers (default VNone (entry !! "etag")) with
       | Some h => [Get (package_url package) h]
       | None => []
       end.

(** *** [get_index_info] *)

Definition local_pypi_index_info : path :=
  joinpath LOCAL_CACHE_PATH "pypi-index.msgpack".

(** [for data in index_info["packages"].values(): data.pop("etag", None)] *)
Definition invalidate (index_info : index) : index :=
  Index (index_etag index_info) (index_sha256sum index_info)
        (delete "etag" <$> packages index_info).

(** [ret.stdout.split()[0].strip()] *)
Definition sha256sum_of (ret : completed) : option string :=
  head (String.words (stdout ret)).

(** The part of the context manager that runs before the [yield]. *)
Definition get_index_info_enter : M world index :=
  cached ← gets (λ w, files w !! local_pypi_index_info);
  match cached with
  | Some c =>
      index_info ← lift_option
        (match c with PackedIndex i => Some i | _ => None end);
      ret ← lift_option sha256_run;
      if decide (returncode ret ≠ 0) then mret (invalidate index_info)
      else
        sha256sum ← lift_option (sha256sum_of ret);
        let stored_sha256sum := index_sha256sum index_info in
        if decide (Some sha256sum ≠ stored_sha256sum)
        then mret (invalidate index_info)
        else mret index_info
  | None => mret (Index None None ∅)
  end.

(** The [finally] part of the context manager. *)
Definition get_index_info_exit : M (index * world) unit :=
  ret ← lift_option sha256_run;
  (if decide (returncode ret ≠ 0) then mret tt
   else
     sha256sum ← lift_option (sha256sum_of ret);
     update_object (λ i, Index (index_etag i) (Some sha256sum) (packages i)));;
  index_info ← the_object;
  write local_pypi_index_info (PackedIndex index_info).

(** *** [download_pypi_simple_index] *)

Definition index_headers (etag : option string) : headers :=
  match etag with
  | Some e => if truthy (VStr e) then {[ "If-None-Match" := e ]} else ∅
  | None => ∅
  end.

Definition index_request (index_info : index) : request :=
  Get "https://pypi.org/simple/" (index_headers (index_etag index_info)).

(** The state of the loop of lines 178-183: [old_packages], [new_packages]
    and [package_list]. *)
Definition diff_step (st : gset string * gset string * gmap string package_info)
    (package : string) : gset string * gset string * gmap string package_info :=
  let '(old_packages, new_packages, package_list) := st in
  let old_packages :=
    if decide (package ∈ old_packages) then old_packages ∖ {[ package ]}
    else old_packages in
  if decide (package_list !! package = None)
  then (old_packages, new_packages ∪ {[ package ]}, <[package := ∅]> package_list)
  else (old_packages, new_packages, package_list).

(** One turn of the loop of lines 189-193. *)
Definition remove_step (st : gmap string package_info * filesystem)
    (package : string) : gmap string package_info * filesystem :=
  (delete package (fst st), delete (package_info_cache package) (snd st)).

Definition download_pypi_simple_index (s : session) : M (index * world) unit :=
  try_finally
    (index_info ← the_object;
     send (index_request index_info);;
     match s (index_request index_info) with
     | Raised | TimedOut => raise
     | Responded response =>
         if decide (status_code response = 304) then mret tt
         else if decide (status_code response ≠ 200) then mret tt
         else
           total ← lift_option (content_length response);
           update_object
             (λ i, Index (response_etag response) (index_sha256sum i) (packages i));;
           etag ← lift_option (response_etag response);
           write (joinpath STATE_DIR "pypi-index-etag") (Text etag);;
           tree ← lift_option (anchors response);
           let old_packages := dom (packages index_info) in
           let '(old_packages, new_packages, package_list) :=
             foldl diff_step (old_packages, ∅, packages index_info) tree in
           modify (λ st,
             let '(package_list, fs) :=
               foldl remove_step (package_list, files (snd st))
                     (elements old_packages) in
             (Index (index_etag (fst st)) (index_sha256sum (fst st)) package_list,
              World fs (sent (snd st))))
     end)
    (mret tt).

(** *** [collect_packages_information] *)

(** The [--fast] test of line 211. *)
Definition skipped_in_fast_mode (package : string) : bool :=
  bool_decide (package ∈ KNOWN_NOT_SALT_EXTENSIONS) ||
  negb (bool_decide (package ∈ KNOWN_SALT_EXTENSIONS) ||
        startswith package PACKAGE_NAME_PREFIXES).

(** The tasks of the nursery, run one after the other in the order of the
    loop; a task that raises ends the nursery.  Each task works on its own
    entry and its own cache file, and the answer to a request depends on the
    request only, so the interleaving of the tasks is not represented here;
    the limiter is the subject of the transition system below. *)
Fixpoint nursery (s : session) (opts : options) (todo : list string)
    : M (index * world) unit :=
  match todo with
  | [] => mret tt
  | package :: todo' =>
      (if fast opts && skipped_in_fast_mode package then mret tt
       else on_entry package (download_package_info s package));;
      nursery s opts todo'
  end.

(** [functools.reduce(lambda x, y: x ^ y, hashes)]; [None] is the
    TypeError raised on an empty list. *)
Definition reduce_xor (hashes : list Z) : option Z :=
  match hashes with
  | [] => None
  | h :: hashes' => Some (foldl Z.lxor h hashes')
  end.

(** The loop of lines 227-231 that fills [extensions]; the directory holds
    packed package data only, anything else counts as unreadable. *)
Fixpoint load_extensions (names : list string) (extensions : gmap string value)
    : M (index * world) (gmap string value) :=
  match names with
  | [] => mret extensions
  | name :: names' =>
      file ← read (joinpath PACKAGE_INFO_CACHE (stem name +:+ ".msgpack"));
      match file with
      | Some (PackedData extension_data) =>
          load_extensions names' (<[stem name := extension_data]> extensions)
      | _ => raise
      end
  end.

(** The [finally] block of lines 224-242. *)
Definition known_extensions_hash : M (index * world) unit :=
  fs ← gets (λ st, files (snd st));
  extensions ← load_extensions (glob_msgpack PACKAGE_INFO_CACHE fs) ∅;
  let items := (λ key, (key, default VNone (extensions !! key)))
                 <$> sorted (elements (dom extensions)) in
  match reduce_xor ((λ kv, py_hash (fst kv) (snd kv)) <$> items) with
  | Some extensions_hash =>
      write (joinpath STATE_DIR "known-extensions-hash") (Text (pretty extensions_hash))
  | None => mret tt
  end.

(** [elements (dom _)] stands for the iteration order of the dict. *)
Definition collect_packages_information (s : session) (opts : options)
    : M (index * world) unit :=
  try_finally
    (index_info ← the_object;
     nursery s opts (elements (dom (packages index_info))))
    known_extensions_hash.

(** *** [main] *)

(** The four-hour [trio.move_on_after] is real time and is left out, and
    with it the return code 1; the final listing only prints. *)
Definition main (s : session) (opts : options) : M world Z := λ w,
  match get_index_info_enter w with
  | (None, w') => (None, w')
  | (Some index_info, w') =>
      match try_finally
              (download_pypi_simple_index s;;
               collect_packages_information s opts)
              get_index_info_exit (index_info, w') with
      | (Some _, st) => (Some 0, snd st)
      | (None, st) => (None, snd st)
      end
  end.
End crawler.

(** *** The nursery as a transition system

    The interleaving of lines 209-222 under trio: the parent task runs the
    loop, and takes and returns a token of the limiter around each
    [nursery.start_soon]; a started task runs [download_package_info], which
    never touches the limiter, until its request is answered. *)

Definition concurrency : nat := 1500.

Inductive parent_state : Type :=
| AtLoopHead
| InsideLimiter (package : string).

Record nursery_state : Type := NurseryState {
  remaining : list string;      (* packages the loop has not reached *)
  parent : parent_state;
  borrowed_tokens : nat;        (* [limiter.borrowed_tokens] *)
  running : list string         (* tasks started and not yet finished *)
}.

Inductive nursery_step (capacity : nat) (skip : string → bool)
    : nursery_state → nursery_state → Prop :=
| step_continue package todo tokens tasks :
    skip package = true →
    nursery_step capacity skip
      (NurseryState (package :: todo) AtLoopHead tokens tasks)
      (NurseryState todo AtLoopHead tokens tasks)
| step_acquire package todo tokens tasks :
    skip package = false →
    (tokens < capacity)%nat →
    nursery_step capacity skip
      (NurseryState (package :: todo) AtLoopHead tokens tasks)
      (NurseryState todo (InsideLimiter package) (S tokens) tasks)
| step_start_soon_release package todo tokens tasks :
    nursery_step capacity skip
      (NurseryState todo (InsideLimiter package) (S tokens) tasks)
      (NurseryState todo AtLoopHead tokens (tasks ++ [package]))
| step_task_finishes package todo state tokens before after :
    nursery_step capacity skip
      (NurseryState todo state tokens (before ++ package :: after))
      (NurseryState todo state tokens (before ++ after)).

Definition nursery_start (todo : list string) : nursery_state :=
  NurseryState todo AtLoopHead 0 [].
End QueryPypi.

(** ** [scripts/refresh-metadata.py] *)

Module RefreshMetadata.

(** [str.isspace] on the ASCII range. *)
Definition isspace (a : ascii) : bool :=
  let n := N_of_ascii a in
  ((9 <=? n) && (n <=? 13) || (28 <=? n) && (n <=? 32))%N.

Fixpoint lstrip (s : string) : string :=
  match s with
  | EmptyString => s
  | String a s' => if isspace a then lstrip s' else s
  end.

Fixpoint rstrip (s : string) : string :=
  match s with
  | EmptyString => s
  | String a s' =>
      match rstrip s' with
      | EmptyString => if isspace a then EmptyString else String a EmptyString
      | r => String a r
      end
  end.

Definition strip (s : string) : string := rstrip (lstrip s).

(** [str.lower] on the ASCII range. *)
Definition lower (a : ascii) : ascii :=
  let n := N_of_ascii a in
  if ((65 <=? n) && (n <=? 90))%N then ascii_of_N (n + 32) else a.

Definition is_separator (a : ascii) : bool :=
  Ascii.eqb a "-" || Ascii.eqb a "_" || Ascii.eqb a ".".

(** [re.sub(r"[-_.]+", "-", name).lower()]; [in_run] tells that the previous
    character was a separator. *)
Fixpoint normalize_from (in_run : bool) (name : string) : string :=
  match name with
  | EmptyString => name
  | String a name' =>
      if is_separator a then
        if in_run then normalize_from true name'
        else String "-" (normalize_from true name')
      else String (lower a) (normalize_from false name')
  end.

Definition normalize (name : string) : string := normalize_from false name.

(** The shape of a normalized name, as a test: every character is a dash or
    a character that is neither a separator nor changed by [lower], and no
    dash follows a dash (or comes first, when [after_dash]). *)
Fixpoint in_normal_form (after_dash : bool) (name : string) : bool :=
  match name with
  | EmptyString => true
  | String a name' =>
      if Ascii.eqb a "-" then negb after_dash && in_normal_form true name'
      else negb (is_separator a) && Ascii.eqb (lower a) a
           && in_normal_form false name'
  end.

(** The values a [for] loop over [v] visits; [None] when [v] is not iterable. *)
Definition iterate (v : value) : option (list value) :=
  match v with
  | VList l => Some l
  | VDict d => Some ((λ kv, VStr (fst kv)) <$> d)
  | VStr s => Some ((λ a, VStr (String a EmptyString)) <$> list_ascii_of_string s)
  | _ => None
  end.

(** [[f for f in files if not f.get("yanked")]] *)
Fixpoint not_yanked (files : list value) : option (list value) :=
  match files with
  | [] => Some []
  | f :: files' =>
      yanked ← dict_get f "yanked";
      rest ← not_yanked files';
      Some (if truthy yanked then rest else f :: rest)
  end.

(** The list comprehension of lines 29-39 over the items of the releases. *)
Fixpoint releases_of (items : list (string * value)) : option (list value) :=
  match items with
  | [] => Some []
  | (ver, all_files) :: items' =>
      all_files ← iterate all_files;
      files ← not_yanked all_files;
      rest ← releases_of items';
      if (0 <? length files)%nat then
        last_file ← last files;
        dt ← subscript last_file "upload_time";
        Some (VDict [("version", VStr ver); ("dt", dt)] :: rest)
      else Some rest
  end.

(** [extension_data.get("releases", {}).items()] *)
Definition releases_items (extension_data : value) : option (list (string * value)) :=
  match extension_data with
  | VDict d =>
      match assoc "releases" d with
      | None => Some []
      | Some (VDict items) => Some items
      | Some _ => None
      end
  | _ => None
  end.

(** [d.pop(k, None)] *)
Definition dict_pop (k : string) (d : list (string * value)) : list (string * value) :=
  filter (λ kv, fst kv ≠ k) d.

Definition EXTRA_KEYS : list string :=
  [ "authorauthor_email"; "bugtrack_url"; "docs_url"; "download_url";
    "home_page"; "maintainer"; "maintainer_email"; "package_url";
    "project_url"; "project_urls"; "release_url" ].

(** [a | b] on dicts: the keys of [b] win. *)
Definition dict_union (a b : list (string * value)) : list (string * value) :=
  filter (λ kv, assoc (fst kv) b = None) a ++ b.

(** The dict comprehension of lines 53-69. *)
Definition extra_fields (info : list (string * value)) : list (string * value) :=
  omap (λ key,
          let v := default VNone (assoc key info) in
          if truthy v then Some (key, v) else None)
       EXTRA_KEYS.
Global Arguments extra_fields : simpl never.

Inductive rendered : Type :=
| Yielded (record : list (string * value))
| Skipped
| Failed.

(** The body of the loop of [iterate_pypi_cache] for one unpacked file. *)
Definition render (extension_data : value) : rendered :=
  let releases :=
    info ← subscript extension_data "info";
    name ← subscript info "name";
    name_normalized ← (match name with VStr n => Some (normalize n) | _ => None end);
    summary ← subscript info "summary";
    summary ← (match summary with VStr t => Some (strip t) | _ => None end);
    items ← releases_items extension_data;
    releases ← releases_of items;
    Some (info, name, name_normalized, summary, releases) in
  match releases with
  | None => Failed
  | Some (info, name, name_normalized, summary, releases) =>
      match releases with
      | [] => Skipped
      | release_first :: _ =>
          let info :=
            match info with
            | VDict d => dict_pop "description" (dict_pop "license" d)
            | _ => []
            end in
          Yielded
            (dict_union
               [ ("name", name);
                 ("name_normalized", VStr name_normalized);
                 ("summary", VStr summary);
                 ("releases", VInt (Z.of_nat (length releases)));
                 ("release_first", release_first);
                 ("release_latest", default VNone (last releases)) ]
               (extra_fields info))
      end
  end.

(** The count of the specification: a version is a release when at least one
    of its files is not yanked. *)
Definition has_file_not_yanked (files : value) : bool :=
  match files with
  | VList l => existsb (λ f, negb (truthy (default VNone (dict_get f "yanked")))) l
  | _ => false
  end.

Definition versions_with_file_not_yanked (items : list (string * value)) : nat :=
  length (filter (λ kv, has_file_not_yanked (snd kv) = true) items).

Section renderer.
Variable LOCAL_CACHE_PATH : path.

Definition PACKAGE_INFO_CACHE : path := joinpath LOCAL_CACHE_PATH "pypi-packages-info".

(** The generator: the records it yields, in order, and whether it ended
    with an exception. *)
Fixpoint iterate_over (fs : filesystem) (names : list string)
    : list (list (string * value)) * bool :=
  match names with
  | [] => ([], false)
  | name :: names' =>
      match fs !! joinpath PACKAGE_INFO_CACHE name with
      | Some (PackedData extension_data) =>
          match render extension_data with
          | Yielded record =>
              let '(records, raised) := iterate_over fs names' in
              (record :: records, raised)
          | Skipped => iterate_over fs names'
          | Failed => ([], true)
          end
      | _ => ([], true)
      end
  end.

Definition iterate_pypi_cache (fs : filesystem)
    : list (list (string * value)) * bool :=
  iterate_over fs (sorted (glob_msgpack PACKAGE_INFO_CACHE fs)).
End renderer.
End RefreshMetadata.

(** ** Sample data for the closed instances *)

Module Sample.
Definition cache : path := ["cache"].
Definition state : path := ["state"].

Definition listing : response :=
  Response 200 (Some "W/1") (Some 64) (Some ["saltext-foo"; "requests"]) None.

Definition unchanged : response := Response 304 (Some "W/0") None None None.

Definition cached_index : index :=
  Index (Some "W/0") None
        {[ "gone" := ∅; "requests" := {[ "etag" := VStr "r1" ]} ]}.

Definition cached_files : filesystem :=
  {[ QueryPypi.package_info_cache cache "gone" := PackedData (VDict [("info", VDict [])]) ]}.

Definition before : world := World cached_files [].

(** A project that is neither listed nor named like an extension. *)
Definition plain_json : value :=
  VDict [("info", VDict [("name", VStr "requests"); ("summary", VStr "HTTP");
                         ("keywords", VStr "http,client")])].

Definition tagged_json : value :=
  VDict [("info", VDict [("name", VStr "tagged"); ("summary", VStr "x");
                         ("keywords", VStr "salt,salt-extension")])].

(** A JSON document without the ["info"] object. *)
Definition odd_json : value := VDict [("message", VStr "moved")].

Definition answer (status : Z) (data : option value) : response :=
  Response status (Some "p1") None None data.

Definition requests_file : path := QueryPypi.package_info_cache cache "requests".

Definition requests_cached : world :=
  World {[ requests_file := PackedData plain_json ]} [].

(** A second run: the index is cached, one package is marked not-found
    and a cache file of that package is on disk. *)
Definition marked : package_info := {[ "not-found" := VBool true ]}.
Definition marked_index : index :=
  Index (Some "W/0") (Some "abc") {[ "requests" := marked ]}.
Definition second_run : world :=
  World {[ QueryPypi.local_pypi_index_info cache := PackedIndex marked_index;
           requests_file := PackedData plain_json ]} [].
Definition sha_ok : option QueryPypi.completed :=
  Some (QueryPypi.Completed 0 "abc  scripts/query-pypi.py").
Definition quiet_net : session := λ r,
  if String.eqb (url r) "https://pypi.org/simple/" then Responded unchanged
  else Raised.
Definition no_hash : string → value → Z := λ _ _, 0.

(** A first reload after the script changed: the cached index carries no
    sha256 yet. *)
Definition reloaded : world :=
  World {[ QueryPypi.local_pypi_index_info cache := PackedIndex cached_index ]} [].
Definition sha_abc : QueryPypi.completed :=
  QueryPypi.Completed 0 "abc  scripts/query-pypi.py".

(** Two versions: one with a live file after a yanked one, one fully
    yanked. *)
Definition released_json : value :=
  VDict [("info", VDict [("name", VStr "Saltext.Foo"); ("summary", VStr " Foo ");
                         ("home_page", VStr "https://example.org")]);
         ("releases",
          VDict [("1.0", VList [VDict [("yanked", VBool true);
                                       ("upload_time", VStr "2024-01-01")];
                                VDict [("yanked", VBool false);
                                       ("upload_time", VStr "2024-01-02")]]);
                 ("1.1", VList [VDict [("yanked", VBool true);
                                       ("upload_time", VStr "2024-02-01")]])])].

Definition yanked_json : value :=
  VDict [("info", VDict [("name", VStr "old"); ("summary", VStr "")]);
         ("releases",
          VDict [("0.1", VList [VDict [("yanked", VBool true);
                                       ("upload_time", VStr "2023-01-01")]]);
                 ("0.2", VList [])])].

Definition released_record : list (string * value) :=
  [("name", VStr "Saltext.Foo"); ("name_normalized", VStr "saltext-foo");
   ("summary", VStr "Foo"); ("releases", VInt 1);
   ("release_first", VDict [("version", VStr "1.0"); ("dt", VStr "2024-01-02")]);
   ("release_latest", VDict [("version", VStr "1.0"); ("dt", VStr "2024-01-02")]);
   ("home_page", VStr "https://example.org")].

(** A cache as the renderer expects it. *)
Definition renderer_cache : filesystem :=
  {[ ["cache"; "pypi-packages-info"; "saltext-foo.msgpack"] := PackedData released_json;
     ["cache"; "pypi-packages-info"; "old.msgpack"] := PackedData yanked_json ]}.

(** A first crawl, from an empty cache. *)
Definition crawl_net : session := λ r,
  if String.eqb (url r) "https://pypi.org/simple/" then Responded listing
  else if String.eqb (url r) (QueryPypi.package_url "saltext-foo")
  then Responded (answer 200 (Some released_json))
  else if String.eqb (url r) (QueryPypi.package_url "requests")
  then Responded (answer 200 (Some plain_json))
  else Raised.

Definition after_crawl : world :=
  snd (QueryPypi.main cache state ∅ ∅ sha_ok no_hash crawl_net
         (QueryPypi.Options false true) (World ∅ [])).

(** One package more than the limiter has tokens. *)
Definition many_packages : list string :=
  (λ n : nat, "package-" +:+ pretty n) <$> seq 0 1501.

Definition with_etag : package_info := {[ "etag" := VStr "r1" ]}.
Definition gone_with_etag : package_info :=
  {[ "etag" := VStr "r1"; "not-found" := VBool true ]}.

(** Answers of the index server that are not a listing. *)
Definition server_error : response := Response 503 (Some "W/9") None None None.
Definition no_length : response :=
  Response 200 (Some "W/1") None (Some ["saltext-foo"; "requests"]) None.
Definition no_etag : response :=
  Response 200 None (Some 64) (Some ["saltext-foo"; "requests"]) None.
Definition unparsable : response := Response 200 (Some "W/1") (Some 64) None None.
(** A renderer cache with a file that cannot be rendered between two that
    can. *)
Definition broken_cache : filesystem :=
  <[ ["cache"; "pypi-packages-info"; "pkg.msgpack"] := PackedData odd_json ]>
    renderer_cache.
(** The listing of exactly the cached names. *)
Definition same_listing : response :=
  Response 200 (Some "W/1") (Some 64) (Some ["requests"; "gone"; "requests"]) None.
End Sample.

(** * Properties *)

Ltac unfold_monad :=
  unfold try_finally, try_except, lift_option, the_object, update_object, send,
    read, write, unlink_if_exists, gets, modify, raise,
    mbind, M_bind, mret, M_ret in *.

(** ** The index step: [download_pypi_simple_index] *)

Section index_step.
Import QueryPypi.
Variables (LOCAL_CACHE_PATH STATE_DIR : path).
Local Abbreviation download_pypi_simple_index :=
  (QueryPypi.download_pypi_simple_index LOCAL_CACHE_PATH STATE_DIR).
Local Abbreviation package_info_cache :=
  (QueryPypi.package_info_cache LOCAL_CACHE_PATH).

(** C6: on a 304 answer the step returns at once; the index (its package
    map and its etag) and every file are what they were, and the only
    effect is the request that was sent. *)
Theorem index_not_modified s index_info w r :
  s (index_request index_info) = Responded r →
  status_code r = 304 →
  download_pypi_simple_index s (index_info, w)
  = (Some tt, (index_info, World (files w) (sent w ++ [index_request index_info]))).
Proof.
  intros Hs H304. unfold QueryPypi.download_pypi_simple_index.
  unfold_monad. simpl. rewrite Hs. by rewrite decide_True.
Qed.

(** The loop of lines 178-183: names that were cached leave [old_packages],
    names that were not get an empty entry. *)
Lemma diff_fold names : ∀ old new pl,
  old ⊆ dom pl →
  let '(old', new', pl') := foldl diff_step (old, new, pl) names in
  old' = old ∖ list_to_set names ∧
  dom pl' = dom pl ∪ list_to_set names ∧
  (∀ p, pl' !! p = match pl !! p with
                   | Some e => Some e
                   | None => if decide (p ∈ names) then Some ∅ else None
                   end).
Proof.
  induction names as [|n names IH]; intros old new pl Hsub; simpl.
  - split; [set_solver|]. split; [set_solver|]. intros p. by destruct (pl !! p).
  - destruct (decide (pl !! n = None)) as [Hn|Hn].
    + specialize (IH (if decide (n ∈ old) then old ∖ {[n]} else old)
                     (new ∪ {[n]}) (<[n:=∅]> pl)).
      destruct (foldl _ _ _) as [[old' new'] pl'].
      destruct IH as (H1 & H2 & H3).
      { rewrite dom_insert_L. case_decide; set_solver. }
      split; [case_decide; set_solver|].
      split; [rewrite H2, dom_insert_L; set_solver|].
      intros p. rewrite H3. destruct (decide (n = p)) as [->|Hne].
      * rewrite lookup_insert_eq, Hn. by rewrite decide_True by set_solver.
      * rewrite lookup_insert_ne by done. destruct (pl !! p); [done|].
        repeat case_decide; set_solver.
    + specialize (IH (if decide (n ∈ old) then old ∖ {[n]} else old) new pl).
      destruct (foldl _ _ _) as [[old' new'] pl'].
      destruct IH as (H1 & H2 & H3).
      { case_decide; set_solver. }
      assert (n ∈ dom pl) by (apply elem_of_dom; destruct (pl !! n); [eauto|done]).
      split; [case_decide; set_solver|].
      split; [rewrite H2; set_solver|].
      intros p. rewrite H3. destruct (pl !! p) eqn:Hp; [done|].
      assert (p ≠ n) by congruence.
      repeat case_decide; set_solver.
Qed.

(** The loop of lines 189-193: the old packages leave the map and lose
    their cache file; nothing else is touched. *)
Lemma remove_fold old : ∀ pl fs,
  let '(pl', fs') := foldl (remove_step LOCAL_CACHE_PATH) (pl, fs) old in
  (∀ p, pl' !! p = if decide (p ∈ old) then None else pl !! p) ∧
  (∀ p, p ∈ old → fs' !! package_info_cache p = None) ∧
  (∀ q, (∀ p, p ∈ old → q ≠ package_info_cache p) → fs' !! q = fs !! q) ∧
  (∀ q, fs !! q = None → fs' !! q = None).
Proof.
  induction old as [|o old IH]; intros pl fs; simpl.
  - repeat split; intros; try done. set_solver.
  - specialize (IH (delete o pl) (delete (package_info_cache o) fs)).
    unfold remove_step at 2. simpl.
    destruct (foldl _ _ _) as [pl' fs']. destruct IH as (H1 & H2 & H3 & H4).
    repeat split.
    + intros p. rewrite H1. destruct (decide (p = o)) as [->|].
      * rewrite lookup_delete_eq. repeat case_decide; set_solver.
      * rewrite lookup_delete_ne by done. repeat case_decide; set_solver.
    + intros p [->|Hp]%elem_of_cons; [|by apply H2].
      apply H4, lookup_delete_eq.
    + intros q Hq. rewrite H3 by (intros p Hp; apply Hq; set_solver).
      apply lookup_delete_ne. symmetry. apply Hq. set_solver.
    + intros q Hq. apply H4. rewrite lookup_delete_None. auto.
Qed.

End index_step.

Lemma index_not_modified_witness :
  status_code Sample.unchanged = 304 ∧
  QueryPypi.download_pypi_simple_index Sample.cache Sample.state
    (λ _, Responded Sample.unchanged) (Sample.cached_index, Sample.before)
  = (Some tt,
     (Sample.cached_index,
      World Sample.cached_files [QueryPypi.index_request Sample.cached_index])).
Proof.
  split; [reflexivity|].
  apply (index_not_modified Sample.cache Sample.state
           (λ _, Responded Sample.unchanged) Sample.cached_index Sample.before
           Sample.unchanged); reflexivity.
Defined.


(** ** Strings and paths *)

Lemma list_ascii_of_string_app a b :
  list_ascii_of_string (a +:+ b) = list_ascii_of_string a ++ list_ascii_of_string b.
Proof. induction a as [|c a IH]; [done|]. cbn -[String.append]. by rewrite <- IH. Qed.

Lemma append_inj_l t a b : a +:+ t = b +:+ t → a = b.
Proof.
  intros H. apply (f_equal list_ascii_of_string) in H.
  rewrite !list_ascii_of_string_app in H. apply app_inv_tail in H.
  apply (f_equal string_of_list_ascii) in H.
  by rewrite !string_of_list_ascii_of_string in H.
Qed.

Lemma ends_with_app t a : ends_with t (a +:+ t) = true.
Proof.
  induction a as [|c a IH].
  - destruct t; simpl; [done|]. by rewrite Ascii.eqb_refl, String.eqb_refl.
  - change (String c a +:+ t) with (String c (a +:+ t)).
    simpl. rewrite IH. apply orb_true_r.
Qed.

Lemma package_url_inj p q : QueryPypi.package_url p = QueryPypi.package_url q → p = q.
Proof.
  unfold QueryPypi.package_url. intros H%(inj (String.app _)).
  by apply append_inj_l in H.
Qed.

Lemma package_info_cache_inj dir p q :
  QueryPypi.package_info_cache dir p = QueryPypi.package_info_cache dir q → p = q.
Proof.
  unfold QueryPypi.package_info_cache, joinpath. intros H%app_inj_tail.
  destruct H as [_ H]. by apply append_inj_l in H.
Qed.

(** The state files are not cache files. *)
Lemma state_file_not_cache dir state name p :
  ends_with ".msgpack" name = false →
  joinpath state name ≠ QueryPypi.package_info_cache dir p.
Proof.
  intros Hname. unfold QueryPypi.package_info_cache, joinpath.
  intros [_ H]%app_inj_tail. by rewrite H, ends_with_app in Hname.
Qed.

(** ** One lookup: [download_package_info] *)

Section package_step.
Import QueryPypi.
Variable LOCAL_CACHE_PATH : path.
Variables KNOWN_SALT_EXTENSIONS KNOWN_NOT_SALT_EXTENSIONS : gset string.
Local Abbreviation package_info_cache :=
  (QueryPypi.package_info_cache LOCAL_CACHE_PATH).
Local Abbreviation is_salt_extension :=
  (QueryPypi.is_salt_extension KNOWN_SALT_EXTENSIONS KNOWN_NOT_SALT_EXTENSIONS).
Local Abbreviation classified_as_salt_extension :=
  (QueryPypi.classified_as_salt_extension
     KNOWN_SALT_EXTENSIONS KNOWN_NOT_SALT_EXTENSIONS).
Local Abbreviation download_package_info :=
  (QueryPypi.download_package_info LOCAL_CACHE_PATH
     KNOWN_SALT_EXTENSIONS KNOWN_NOT_SALT_EXTENSIONS).

(** The early return of lines 248-254. *)
Lemma skip_not_found s package entry w :
  marked_not_found entry = true →
  download_package_info s package (entry, w)
  = (Some tt, (entry, World (delete (package_info_cache package) (files w)) (sent w))).
Proof.
  intros H. unfold QueryPypi.download_package_info.
  unfold_monad. simpl. by rewrite H.
Qed.

Lemma conditional_headers_etag e :
  e ≠ "" → conditional_headers (VStr e) = Some {[ "If-None-Match" := e ]}.
Proof.
  intros He. unfold conditional_headers. simpl.
  by destruct (String.eqb_spec e "").
Qed.

(** A lookup sends [requests_of], touches no file but the cache file of
    its package, and leaves a package marked not-found as it is. *)
Lemma download_package_info_effects s package entry w :
  ∃ res entry' fs',
    download_package_info s package (entry, w)
    = (res, (entry', World fs' (sent w ++ requests_of package entry))) ∧
    (∀ q, q ≠ package_info_cache package → fs' !! q = files w !! q) ∧
    (marked_not_found entry = true →
     entry' = entry ∧ fs' !! package_info_cache package = None ∧ res = Some tt).
Proof.
  unfold requests_of. destruct (marked_not_found entry) eqn:Hm.
  { rewrite skip_not_found by done. eexists _, _, _.
    rewrite app_nil_r. split; [done|].
    split; [intros q Hq; by rewrite lookup_delete_ne|].
    intros _. by rewrite lookup_delete_eq. }
  unfold QueryPypi.download_package_info. unfold_monad. simpl. rewrite Hm.
  destruct (conditional_headers _) as [h|]; simpl.
  2:{ exists None, entry, (files w). rewrite app_nil_r. by destruct w. }
  assert (Hfr : ∀ (fs : filesystem) q, q ≠ package_info_cache package →
            delete (package_info_cache package) fs !! q = fs !! q)
    by (intros; by apply lookup_delete_ne).
  assert (Hfw : ∀ (fs : filesystem) c q, q ≠ package_info_cache package →
            <[package_info_cache package := c]> fs !! q = fs !! q)
    by (intros; by apply lookup_insert_ne).
  destruct (s _) as [req| |]; simpl;
    repeat (case_decide; simpl);
    try (destruct (json req) as [data|]; simpl);
    try (destruct (truthy data); simpl);
    try (destruct (is_salt_extension package data) as [[]|]; simpl);
    (eexists _, _, _; split; [reflexivity|]; split; [by auto|done]).
Qed.
Section answered.
Variables (s : session) (package : string) (entry : package_info) (w : world).
Variables (h : headers) (req : response).
Hypothesis Hfound : marked_not_found entry = false.
Hypothesis Hheaders :
  conditional_headers (default VNone (entry !! "etag")) = Some h.
Hypothesis Hanswer : s (Get (package_url package) h) = Responded req.

Lemma answered_304 :
  status_code req = 304 →
  download_package_info s package (entry, w)
  = (Some tt, (<["etag" := optional_str (response_etag req)]> entry,
               World (files w) (sent w ++ [Get (package_url package) h]))).
Proof.
  intros Hst. unfold QueryPypi.download_package_info. unfold_monad. simpl.
  rewrite Hfound, Hheaders. simpl. rewrite Hanswer. simpl.
  by rewrite decide_True.
Qed.

Lemma answered_404 :
  status_code req = 404 →
  download_package_info s package (entry, w)
  = (Some tt,
     (<["not-found" := VBool true]>
        (<["etag" := optional_str (response_etag req)]> entry),
      World (delete (package_info_cache package) (files w))
            (sent w ++ [Get (package_url package) h]))).
Proof.
  intros Hst. unfold QueryPypi.download_package_info. unfold_monad. simpl.
  rewrite Hfound, Hheaders. simpl. rewrite Hanswer. simpl.
  rewrite decide_False by lia. rewrite decide_True by lia.
  by rewrite decide_True.
Qed.

Lemma answered_200 data :
  status_code req = 200 →
  json req = Some data →
  truthy data = true →
  download_package_info s package (entry, w)
  = (Some tt,
     (<["etag" := optional_str (response_etag req)]> entry,
      World match is_salt_extension package data with
            | Some true => <[package_info_cache package := PackedData data]> (files w)
            | Some false => delete (package_info_cache package) (files w)
            | None => files w
            end
            (sent w ++ [Get (package_url package) h]))).
Proof.
  intros Hst Hjson Hdata. unfold QueryPypi.download_package_info.
  unfold_monad. simpl.
  rewrite Hfound, Hheaders. simpl. rewrite Hanswer. simpl.
  rewrite decide_False by lia. rewrite decide_False by (intros ?; lia).
  rewrite Hjson. simpl. rewrite Hdata. simpl.
  by destruct (is_salt_extension package data) as [[]|].
Qed.
End answered.

(** When the classification of the code completes, it is the one of the
    specification. *)
Lemma is_salt_extension_classified package data b :
  is_salt_extension package data = Some b →
  b = classified_as_salt_extension package data.
Proof.
  unfold QueryPypi.is_salt_extension, QueryPypi.classified_as_salt_extension,
    keywords_mention_salt_extension.
  generalize (startswith package PACKAGE_NAME_PREFIXES). intros named.
  destruct (decide (package ∈ KNOWN_SALT_EXTENSIONS)) as [Hin|Hin].
  { rewrite bool_decide_true by done. by intros [= <-]. }
  rewrite bool_decide_false by done. simpl.
  destruct (decide (package ∉ KNOWN_NOT_SALT_EXTENSIONS)) as [Hex|Hex].
  2:{ rewrite bool_decide_false by done. by intros [= <-]. }
  rewrite bool_decide_true by done. simpl.
  destruct named; [by intros [= <-]|].
  simpl. destruct (subscript data "info") as [info|]; [|done]. simpl.
  destruct (subscript info "keywords") as [keywords|]; [|done]. simpl.
  destruct (truthy keywords) eqn:Ht.
  - intros Hb. by rewrite Hb.
  - intros [= <-]. destruct keywords as [| | |k|[]|[]]; try done.
    simpl in Ht. by destruct (String.eqb_spec k ""); subst.
Qed.

(** The classification raises only when it gets to the keywords and cannot
    read or search them. *)
Lemma is_salt_extension_raises package data :
  is_salt_extension package data = None →
  (package ∉ KNOWN_SALT_EXTENSIONS) ∧ (package ∉ KNOWN_NOT_SALT_EXTENSIONS) ∧
  startswith package PACKAGE_NAME_PREFIXES = false ∧
  match subscript data "info" ≫= (λ info, subscript info "keywords") with
  | Some keywords => truthy keywords = true ∧ py_in "salt-extension" keywords = None
  | None => True
  end.
Proof.
  unfold QueryPypi.is_salt_extension.
  generalize (startswith package PACKAGE_NAME_PREFIXES). intros named.
  destruct (decide (package ∈ KNOWN_SALT_EXTENSIONS)); [done|].
  destruct (decide (package ∉ KNOWN_NOT_SALT_EXTENSIONS)); [|done].
  destruct named; [done|].
  destruct (subscript data "info") as [info|]; simpl; [|done].
  destruct (subscript info "keywords") as [keywords|]; simpl; [|done].
  by destruct (truthy keywords).
Qed.
(** C2, amended: a package that is not marked not-found and whose entry
    holds a non-empty etag is asked for with [If-None-Match] set to that
    etag, and this is the only request; on a 304 answer the lookup returns
    and the files are what they were. *)
Theorem conditional_request s package entry w e :
  marked_not_found entry = false →
  entry !! "etag" = Some (VStr e) →
  e ≠ "" →
  ∃ res entry' fs',
    download_package_info s package (entry, w)
    = (res, (entry',
             World fs' (sent w ++ [Get (package_url package)
                                       {[ "If-None-Match" := e ]}]))) ∧
    ∀ req, s (Get (package_url package) {[ "If-None-Match" := e ]}) = Responded req →
           status_code req = 304 →
           res = Some tt ∧ fs' = files w.
Proof.
  intros Hfound Hetag He.
  assert (Hh : conditional_headers (default VNone (entry !! "etag"))
               = Some {[ "If-None-Match" := e ]}).
  { rewrite Hetag. by apply conditional_headers_etag. }
  destruct (download_package_info_effects s package entry w)
    as (res & entry' & fs' & Hrun & _).
  unfold requests_of in Hrun. rewrite Hfound, Hh in Hrun.
  exists res, entry', fs'. split; [done|].
  intros req Hreq H304.
  rewrite (answered_304 s package entry w _ req Hfound Hh Hreq H304) in Hrun.
  by injection Hrun as <- _ <-.
Qed.

End package_step.

Lemma conditional_request_witness :
  ∃ res entry' fs',
    QueryPypi.download_package_info Sample.cache ∅ ∅
      (λ _, Responded (Sample.answer 304 None)) "requests"
      (Sample.with_etag, Sample.requests_cached)
    = (res, (entry',
             World fs' ([] ++ [Get (QueryPypi.package_url "requests")
                                   {[ "If-None-Match" := "r1" ]}]))) ∧
    ∀ req, (λ _, Responded (Sample.answer 304 None))
             (Get (QueryPypi.package_url "requests") {[ "If-None-Match" := "r1" ]})
           = Responded req →
           status_code req = 304 →
           res = Some tt ∧ fs' = files Sample.requests_cached.
Proof.
  apply (conditional_request Sample.cache ∅ ∅
           (λ _, Responded (Sample.answer 304 None)) "requests"
           Sample.with_etag Sample.requests_cached "r1"); [reflexivity|reflexivity|].
  discriminate.
Defined.

(** C2 as stated fails: this entry holds an etag, is marked not-found, and
    no request at all is sent for it. *)
Lemma not_found_entry_sends_no_request :
  Sample.gone_with_etag !! "etag" = Some (VStr "r1") ∧
  sent (snd (snd (QueryPypi.download_package_info Sample.cache ∅ ∅
                    (λ _, Responded (Sample.answer 304 None)) "gone"
                    (Sample.gone_with_etag, World ∅ []))))
  = [].
Proof. split; reflexivity. Qed.



(** ** The nursery and [collect_packages_information] *)

Section collect_step.
Import QueryPypi.
Variables (LOCAL_CACHE_PATH STATE_DIR : path).
Variables KNOWN_SALT_EXTENSIONS KNOWN_NOT_SALT_EXTENSIONS : gset string.
Variable py_hash : string → value → Z.
Local Abbreviation package_info_cache :=
  (QueryPypi.package_info_cache LOCAL_CACHE_PATH).
Local Abbreviation download_package_info :=
  (QueryPypi.download_package_info LOCAL_CACHE_PATH
     KNOWN_SALT_EXTENSIONS KNOWN_NOT_SALT_EXTENSIONS).
Local Abbreviation skipped_in_fast_mode :=
  (QueryPypi.skipped_in_fast_mode KNOWN_SALT_EXTENSIONS KNOWN_NOT_SALT_EXTENSIONS).
Local Abbreviation nursery :=
  (QueryPypi.nursery LOCAL_CACHE_PATH KNOWN_SALT_EXTENSIONS KNOWN_NOT_SALT_EXTENSIONS).
Local Abbreviation known_extensions_hash :=
  (QueryPypi.known_extensions_hash LOCAL_CACHE_PATH STATE_DIR py_hash).
Local Abbreviation collect_packages_information :=
  (QueryPypi.collect_packages_information LOCAL_CACHE_PATH STATE_DIR
     KNOWN_SALT_EXTENSIONS KNOWN_NOT_SALT_EXTENSIONS py_hash).

Lemma nursery_cons s opts package todo st :
  nursery s opts (package :: todo) st =
  if fast opts && skipped_in_fast_mode package then nursery s opts todo st
  else match on_entry package (download_package_info s package) st with
       | (Some _, st') => nursery s opts todo st'
       | (None, st') => (None, st')
       end.
Proof.
  simpl. unfold mbind, M_bind at 1.
  destruct (fast opts && skipped_in_fast_mode package); [done|].
  by destruct (on_entry _ _ _) as [[[]|] ?].
Qed.

Lemma requests_of_url package entry :
  Forall (λ r, url r = package_url package) (requests_of package entry).
Proof.
  unfold requests_of. destruct (marked_not_found entry); [done|].
  destruct (conditional_headers _); [|done]. by constructor.
Qed.

(** Every request of the nursery asks for the JSON of one of its packages. *)
Lemma nursery_sent s opts todo : ∀ st,
  ∃ reqs, sent (snd (snd (nursery s opts todo st))) = sent (snd st) ++ reqs ∧
          Forall (λ r, ∃ p, p ∈ todo ∧ url r = package_url p) reqs.
Proof.
  clear py_hash STATE_DIR.
  induction todo as [|q todo IH]; intros st.
  - exists []. by rewrite app_nil_r.
  - rewrite nursery_cons.
    destruct (fast opts && skipped_in_fast_mode q).
    { destruct (IH st) as (reqs & -> & Hall). exists reqs. split; [done|].
      eapply Forall_impl; [done|]. intros r (p & ? & ?). exists p. set_solver. }
    unfold on_entry. destruct (packages (fst st) !! q) as [e|].
    2:{ exists []. by rewrite app_nil_r. }
    destruct (download_package_info_effects LOCAL_CACHE_PATH KNOWN_SALT_EXTENSIONS
                KNOWN_NOT_SALT_EXTENSIONS s q e (snd st))
      as (res & e' & fs' & -> & _).
    assert (Hq : Forall (λ r, ∃ p, p ∈ q :: todo ∧ url r = package_url p)
                        (requests_of q e)).
    { eapply Forall_impl; [apply requests_of_url|].
      intros r Hr. exists q. split; [set_solver|done]. }
    destruct res as [[]|]; simpl; [|by eexists].
    edestruct IH as (reqs' & -> & Hall). simpl.
    exists (requests_of q e ++ reqs'). rewrite app_assoc. split; [done|].
    apply Forall_app. split; [done|].
    eapply Forall_impl; [done|]. intros r (p & ? & ?). exists p. set_solver.
Qed.
(** A package marked not-found stays so through the nursery and is never
    asked for; once its turn has come its cache file is gone. *)
Lemma nursery_not_found s opts p e todo : ∀ st,
  packages (fst st) !! p = Some e →
  marked_not_found e = true →
  ∃ res st' reqs,
    nursery s opts todo st = (res, st') ∧
    sent (snd st') = sent (snd st) ++ reqs ∧
    Forall (λ r, url r ≠ package_url p) reqs ∧
    packages (fst st') !! p = Some e ∧
    (files (snd st) !! package_info_cache p = None →
     files (snd st') !! package_info_cache p = None) ∧
    (p ∈ todo → fast opts && skipped_in_fast_mode p = false → res = Some tt →
     files (snd st') !! package_info_cache p = None).
Proof.
  induction todo as [|q todo IH]; intros st Hp Hm.
  - exists (Some tt), st, []. rewrite app_nil_r. repeat split; try done. set_solver.
  - rewrite nursery_cons.
    destruct (fast opts && skipped_in_fast_mode q) eqn:Hskip.
    { destruct (IH st Hp Hm) as (res & st' & reqs & -> & Hs & Hall & Hp' & Hf & Hd).
      exists res, st', reqs. repeat split; try done.
      intros [->|Hin]%elem_of_cons Hns; [congruence|by apply Hd]. }
    unfold on_entry. destruct (packages (fst st) !! q) as [eq|] eqn:Hq.
    2:{ exists None, st, []. rewrite app_nil_r. repeat split; try done. }
    destruct (download_package_info_effects LOCAL_CACHE_PATH KNOWN_SALT_EXTENSIONS
                KNOWN_NOT_SALT_EXTENSIONS s q eq (snd st))
      as (res & e' & fs' & -> & Hframe & Hmarked).
    set (reqs := requests_of q eq).
    set (st1 := (Index (index_etag (fst st)) (index_sha256sum (fst st))
                       (<[q:=e']> (packages (fst st))),
                 World fs' (sent (snd st) ++ reqs))).
    assert (Hp1 : packages (fst st1) !! p = Some e).
    { simpl. destruct (decide (q = p)) as [->|Hne].
      - rewrite lookup_insert_eq. rewrite Hp in Hq. injection Hq as <-.
        by destruct (Hmarked Hm) as (-> & _).
      - by rewrite lookup_insert_ne. }
    assert (Hreqs1 : Forall (λ r, url r ≠ package_url p) reqs).
    { subst reqs. destruct (decide (q = p)) as [->|Hne].
      - rewrite Hp in Hq. injection Hq as <-.
        unfold requests_of. by rewrite Hm.
      - eapply Forall_impl; [apply requests_of_url|]. simpl.
        intros r -> ?%package_url_inj. done. }
    assert (Hf1 : files (snd st) !! package_info_cache p = None →
                  fs' !! package_info_cache p = None).
    { destruct (decide (q = p)) as [->|Hne].
      - rewrite Hp in Hq. injection Hq as <-.
        by destruct (Hmarked Hm) as (_ & -> & _).
      - intros H. rewrite Hframe; [done|].
        intros ?%package_info_cache_inj. done. }
    destruct res as [[]|].
    + destruct (IH st1 Hp1 Hm) as (res & st' & reqs' & -> & Hs & Hall & Hp' & Hf & Hd).
      exists res, st', (reqs ++ reqs'). split; [done|].
      split; [by rewrite Hs, app_assoc|].
      split; [by apply Forall_app|]. split; [done|].
      split; [by intros ?; apply Hf, Hf1|].
      intros [->|Hin]%elem_of_cons Hns Hres; [|by apply Hd].
      apply Hf. simpl. rewrite Hp in Hq. injection Hq as <-.
      by destruct (Hmarked Hm) as (_ & -> & _).
    + exists None, st1, reqs. repeat split; try done.
Qed.

Lemma load_extensions_pure (names : list string) : ∀ extensions st,
  snd (load_extensions LOCAL_CACHE_PATH names extensions st) = st.
Proof.
  induction names as [|n names IH]; intros extensions st; [done|]. simpl.
  unfold_monad. simpl.
  destruct (files (snd st) !! _) as [[]|]; try done.
Qed.

(** The [finally] block sends nothing, leaves the index alone and writes
    at most the hash file. *)
Lemma known_extensions_hash_effects st :
  ∃ res fs',
    known_extensions_hash st = (res, (fst st, World fs' (sent (snd st)))) ∧
    ∀ q, q ≠ joinpath STATE_DIR "known-extensions-hash" →
         fs' !! q = files (snd st) !! q.
Proof.
  unfold QueryPypi.known_extensions_hash.
  unfold mbind at 1. unfold M_bind at 1. unfold gets at 1.
  unfold mbind at 1. unfold M_bind at 1.
  pose proof (load_extensions_pure
                (glob_msgpack (PACKAGE_INFO_CACHE LOCAL_CACHE_PATH) (files (snd st)))
                ∅ st) as Hpure.
  destruct (load_extensions _ _ _ st) as [[ext|] st1]; simpl in Hpure; subst st1.
  2:{ exists None, (files (snd st)). by destruct st as [i []]. }
  destruct (reduce_xor _) as [h|].
  - unfold_monad. simpl. eexists _, _. split; [done|].
    intros q Hq. by rewrite lookup_insert_ne.
  - exists (Some tt), (files (snd st)). by destruct st as [i []].
Qed.

(** [collect_packages_information] in terms of its two parts. *)
Lemma collect_packages_information_eq s opts st :
  collect_packages_information s opts st =
  let '(r, st1) := nursery s opts (elements (dom (packages (fst st)))) st in
  match known_extensions_hash st1 with
  | (Some _, st2) => (r, st2)
  | (None, st2) => (None, st2)
  end.
Proof. reflexivity. Qed.
(** The mark survives the invalidation done when the cache is loaded. *)
Lemma invalidate_keeps_mark index_info p e :
  packages index_info !! p = Some e →
  ∃ e', packages (invalidate index_info) !! p = Some e' ∧
        marked_not_found e' = marked_not_found e.
Proof.
  intros Hp. exists (delete "etag" e). simpl. rewrite lookup_fmap, Hp.
  split; [done|]. unfold marked_not_found. by rewrite lookup_delete_ne.
Qed.

(** What [collect_packages_information] does with a package that is marked
    not-found: it never asks for it, and when it returns it has removed
    the cache file of every such package that [--fast] does not filter
    out. *)
Lemma collect_not_found s opts p e st :
  packages (fst st) !! p = Some e →
  marked_not_found e = true →
  ∃ res st' reqs,
    collect_packages_information s opts st = (res, st') ∧
    sent (snd st') = sent (snd st) ++ reqs ∧
    Forall (λ r, url r ≠ package_url p) reqs ∧
    packages (fst st') !! p = Some e ∧
    (fast opts && skipped_in_fast_mode p = false → res = Some tt →
     files (snd st') !! package_info_cache p = None).
Proof.
  intros Hp Hm. rewrite collect_packages_information_eq.
  destruct (nursery_not_found s opts p e (elements (dom (packages (fst st)))) st Hp Hm)
    as (res & st1 & reqs & -> & Hs & Hall & Hp1 & _ & Hd).
  destruct (known_extensions_hash_effects st1) as (res2 & fs2 & -> & Hframe).
  assert (Hfile : fast opts && skipped_in_fast_mode p = false → res = Some tt →
                  fs2 !! package_info_cache p = None).
  { intros Hfast Hres. rewrite Hframe.
    - apply Hd; [|done..]. apply elem_of_elements, elem_of_dom. eauto.
    - intros H. symmetry in H. by apply state_file_not_cache in H. }
  destruct res2 as [[]|]; eexists _, _, reqs; (split; [reflexivity|]); by simpl.
Qed.

End collect_step.



(** ** The whole run: [main] *)

Section main_run.
Import QueryPypi.
Variables (LOCAL_CACHE_PATH STATE_DIR : path).
Variables KNOWN_SALT_EXTENSIONS KNOWN_NOT_SALT_EXTENSIONS : gset string.
Variable sha256_run : option completed.
Variable py_hash : string → value → Z.
Local Abbreviation get_index_info_enter :=
  (QueryPypi.get_index_info_enter LOCAL_CACHE_PATH sha256_run).
Local Abbreviation get_index_info_exit :=
  (QueryPypi.get_index_info_exit LOCAL_CACHE_PATH sha256_run).
Local Abbreviation download_pypi_simple_index :=
  (QueryPypi.download_pypi_simple_index LOCAL_CACHE_PATH STATE_DIR).
Local Abbreviation collect_packages_information :=
  (QueryPypi.collect_packages_information LOCAL_CACHE_PATH STATE_DIR
     KNOWN_SALT_EXTENSIONS KNOWN_NOT_SALT_EXTENSIONS py_hash).
Local Abbreviation main :=
  (QueryPypi.main LOCAL_CACHE_PATH STATE_DIR
     KNOWN_SALT_EXTENSIONS KNOWN_NOT_SALT_EXTENSIONS sha256_run py_hash).

(** Loading the cache reads one file and changes nothing. *)
Lemma get_index_info_enter_world w : snd (get_index_info_enter w) = w.
Proof.
  unfold QueryPypi.get_index_info_enter. unfold_monad. simpl.
  destruct (files w !! _) as [[i| |]|]; simpl; try done.
  destruct sha256_run as [ret|]; simpl; [|done].
  case_decide; [done|].
  destruct (sha256sum_of ret); simpl; [|done]. by case_decide.
Qed.

(** Saving the cache sends nothing. *)
Lemma get_index_info_exit_sent st :
  sent (snd (snd (get_index_info_exit st))) = sent (snd st).
Proof.
  unfold QueryPypi.get_index_info_exit. unfold_monad. simpl.
  destruct sha256_run as [ret|]; simpl; [|done].
  case_decide; simpl; [done|].
  by destruct (sha256sum_of ret).
Qed.

(** The index step sends exactly the index request. *)
Lemma download_pypi_simple_index_sent s st :
  sent (snd (snd (download_pypi_simple_index s st)))
  = sent (snd st) ++ [index_request (fst st)].
Proof.
  unfold QueryPypi.download_pypi_simple_index. unfold_monad. simpl.
  destruct (s _) as [r| |]; simpl; try done.
  repeat (case_decide; simpl; try done).
  destruct (content_length r); simpl; [|done].
  destruct (response_etag r); simpl; [|done].
  destruct (anchors r); simpl; [|done].
  destruct (foldl diff_step _ _) as [[old' new'] pl']. simpl.
  by destruct (foldl (remove_step LOCAL_CACHE_PATH) _ _).
Qed.

(** The per-package stage sends only per-package requests, for packages
    of the map it starts from. *)
Lemma collect_packages_information_sent s opts st :
  ∃ reqs,
    sent (snd (snd (collect_packages_information s opts st)))
    = sent (snd st) ++ reqs ∧
    Forall (λ r, ∃ p, p ∈ dom (packages (fst st)) ∧ url r = package_url p) reqs.
Proof.
  rewrite collect_packages_information_eq.
  destruct (nursery_sent LOCAL_CACHE_PATH KNOWN_SALT_EXTENSIONS
              KNOWN_NOT_SALT_EXTENSIONS s opts
              (elements (dom (packages (fst st)))) st) as (reqs & Hs & Hall).
  destruct (nursery _ _ _ _ _ _ st) as [r st1]. simpl in Hs.
  destruct (known_extensions_hash_effects LOCAL_CACHE_PATH STATE_DIR py_hash st1)
    as (res2 & fs2 & -> & _).
  exists reqs. split; [by destruct res2 as [[]|]|].
  eapply Forall_impl; [done|]. intros r0 (p & Hp & ?). exists p.
  split; [by apply elem_of_elements|done].
Qed.
Lemma package_url_not_index package index_info :
  package_url package ≠ url (index_request index_info).
Proof. done. Qed.

(** [main] in terms of its stages. *)
Lemma main_eq s opts w :
  main s opts w =
  match get_index_info_enter w with
  | (None, w') => (None, w')
  | (Some index_info, w') =>
      let '(r, st) :=
        match download_pypi_simple_index s (index_info, w') with
        | (Some _, st1) => collect_packages_information s opts st1
        | (None, st1) => (None, st1)
        end in
      match get_index_info_exit st with
      | (Some _, st') => (match r with Some _ => Some 0 | None => None end, snd st')
      | (None, st') => (None, snd st')
      end
  end.
Proof.
  unfold QueryPypi.main. destruct (get_index_info_enter w) as [[index_info|] w']; [|done].
  unfold try_finally. unfold mbind at 1. unfold M_bind at 1.
  destruct (download_pypi_simple_index s (index_info, w')) as [[[]|] st1].
  - destruct (collect_packages_information s opts st1) as [r st].
    by destruct (get_index_info_exit st) as [[[]|] st'], r as [[]|].
  - by destruct (get_index_info_exit st1) as [[[]|] st'].
Qed.

End main_run.

(** The requests of the sample crawl, in order. *)
Example crawl_requests :
  url <$> sent Sample.after_crawl
  = ["https://pypi.org/simple/"; "https://pypi.org/pypi/saltext-foo/json";
     "https://pypi.org/pypi/requests/json"].
Proof. reflexivity. Qed.

(** ** Loading and saving the cached index: [get_index_info] *)

Section index_cache.
Import QueryPypi.
Variable LOCAL_CACHE_PATH : path.
Local Abbreviation local_pypi_index_info :=
  (QueryPypi.local_pypi_index_info LOCAL_CACHE_PATH).
Local Abbreviation get_index_info_enter :=
  (QueryPypi.get_index_info_enter LOCAL_CACHE_PATH).
Local Abbreviation get_index_info_exit :=
  (QueryPypi.get_index_info_exit LOCAL_CACHE_PATH).

(** [invalidate] removes the etag of every entry and nothing else. *)
Lemma invalidate_spec index_info :
  index_etag (invalidate index_info) = index_etag index_info ∧
  index_sha256sum (invalidate index_info) = index_sha256sum index_info ∧
  dom (packages (invalidate index_info)) = dom (packages index_info) ∧
  ∀ p e, packages index_info !! p = Some e →
         ∃ e', packages (invalidate index_info) !! p = Some e' ∧
               e' !! "etag" = None ∧
               ∀ k, k ≠ "etag" → e' !! k = e !! k.
Proof.
  repeat split; simpl.
  - apply dom_fmap_L.
  - intros p e Hp. exists (delete "etag" e). rewrite lookup_fmap, Hp.
    split; [done|]. split; [apply lookup_delete_eq|].
    intros k Hk. by apply lookup_delete_ne.
Qed.

(** When the sha256 is computed and is the stored one, the cache is
    loaded as it is. *)
Lemma get_index_info_enter_same w index_info ret h :
  files w !! local_pypi_index_info = Some (PackedIndex index_info) →
  returncode ret = 0 →
  sha256sum_of ret = Some h →
  index_sha256sum index_info = Some h →
  get_index_info_enter (Some ret) w = (Some index_info, w).
Proof.
  intros Hfile Hrc Hsha Hstored. unfold QueryPypi.get_index_info_enter.
  unfold_monad. simpl. rewrite Hfile. simpl.
  rewrite decide_False by (intros ?; lia). rewrite Hsha. simpl.
  by rewrite decide_False by (rewrite Hstored; auto).
Qed.

(** Without a sha256 command [get_sha256_command] raises, and so does the
    loading of an existing cache. *)
Lemma get_index_info_enter_no_command w index_info :
  files w !! local_pypi_index_info = Some (PackedIndex index_info) →
  get_index_info_enter None w = (None, w).
Proof.
  intros Hfile. unfold QueryPypi.get_index_info_enter. unfold_monad. simpl.
  by rewrite Hfile.
Qed.

End index_cache.


(** ** The renderer: [iterate_pypi_cache] *)

Section rendering.
Import RefreshMetadata.

Lemma not_yanked_length files : ∀ kept,
  not_yanked files = Some kept →
  (0 <? length kept)%nat
  = existsb (λ f, negb (truthy (default VNone (dict_get f "yanked")))) files.
Proof.
  induction files as [|f files IH]; intros kept; simpl.
  - by intros [= <-].
  - destruct (dict_get f "yanked") as [yanked|]; simpl; [|done].
    destruct (not_yanked files) as [rest|]; simpl; [|done].
    intros [= <-]. destruct (truthy yanked); simpl; [by apply IH|done].
Qed.

Lemma not_yanked_of_strings (l : list string) kept :
  not_yanked (VStr <$> l) = Some kept → l = [].
Proof. by destruct l. Qed.

Lemma iterate_not_yanked all_files files kept :
  iterate all_files = Some files →
  not_yanked files = Some kept →
  (0 <? length kept)%nat = has_file_not_yanked all_files.
Proof.
  destruct all_files as [| | |t|l|d]; simpl; try done.
  - intros [= <-] H.
    destruct (list_ascii_of_string t); [by injection H as <-|done].
  - intros [= <-]. apply not_yanked_length.
  - intros [= <-] H. destruct d; [by injection H as <-|done].
Qed.

Lemma releases_of_length items : ∀ releases,
  releases_of items = Some releases →
  length releases = versions_with_file_not_yanked items.
Proof.
  unfold versions_with_file_not_yanked.
  induction items as [|[ver all_files] items IH]; intros releases; simpl.
  - by intros [= <-].
  - destruct (iterate all_files) as [files|] eqn:Hit; simpl; [|done].
    destruct (not_yanked files) as [kept|] eqn:Hkept; simpl; [|done].
    destruct (releases_of items) as [rest|]; simpl; [|done].
    rewrite filter_cons. simpl.
    rewrite <- (iterate_not_yanked _ _ _ Hit Hkept).
    destruct (0 <? length kept)%nat; simpl.
    + destruct (last kept) as [last_file|]; simpl; [|done].
      destruct (subscript last_file "upload_time"); simpl; [|done].
      intros [= <-]. simpl. f_equal. by apply IH.
    + intros [= <-]. by apply IH.
Qed.

Lemma assoc_app k l1 l2 :
  assoc k (l1 ++ l2) = match assoc k l1 with Some v => Some v | None => assoc k l2 end.
Proof.
  induction l1 as [|[k' v] l1 IH]; simpl; [done|]. by destruct (String.eqb k k').
Qed.

Lemma assoc_extras k (f : string → option (string * value)) keys :
  (∀ key kv, f key = Some kv → fst kv = key) →
  k ∉ keys →
  assoc k (omap f keys) = None.
Proof.
  intros Hf. induction keys as [|key keys IH]; intros Hk; simpl; [done|].
  apply not_elem_of_cons in Hk as [Hne Hk].
  destruct (f key) as [[k' v]|] eqn:Hkey; simpl; [|by apply IH].
  apply Hf in Hkey. simpl in Hkey. subst k'.
  destruct (String.eqb_spec k key); [done|]. by apply IH.
Qed.

Lemma assoc_extra_fields k info :
  k ∉ EXTRA_KEYS → assoc k (extra_fields info) = None.
Proof.
  intros Hk. unfold extra_fields. apply assoc_extras; [|done].
  intros key kv. simpl. destruct (truthy _); [by intros [= <-]|done].
Qed.

Lemma no_release_iff items :
  versions_with_file_not_yanked items = 0%nat ↔
  Forall (λ kv, has_file_not_yanked (snd kv) = false) items.
Proof.
  unfold versions_with_file_not_yanked.
  induction items as [|kv items IH]; simpl; [done|].
  rewrite filter_cons, Forall_cons.
  destruct (has_file_not_yanked (snd kv)); simpl.
  - split; [lia|by intros []].
  - rewrite IH. tauto.
Qed.

(** The loop body: a record is yielded only when some version has a file
    that is not yanked, and its ["releases"] field is the number of such
    versions; a package all of whose versions have only yanked files, or
    none, is skipped, unless reading it raised before. *)
Lemma render_releases extension_data :
  match render extension_data with
  | Yielded record =>
      ∃ items,
        releases_items extension_data = Some items ∧
        assoc "releases" record
        = Some (VInt (Z.of_nat (versions_with_file_not_yanked items))) ∧
        ¬ Forall (λ kv, has_file_not_yanked (snd kv) = false) items
  | Skipped =>
      ∃ items,
        releases_items extension_data = Some items ∧
        Forall (λ kv, has_file_not_yanked (snd kv) = false) items
  | Failed => True
  end.
Proof.
  unfold render.
  destruct (subscript extension_data "info") as [info|]; simpl; [|done].
  destruct (subscript info "name") as [name|]; simpl; [|done].
  destruct name as [| | |n| |]; simpl; try done.
  destruct (subscript info "summary") as [summary|]; simpl; [|done].
  destruct summary as [| | |t| |]; simpl; try done.
  destruct (releases_items extension_data) as [items|]; simpl; [|done].
  destruct (releases_of items) as [releases|] eqn:Hrel; simpl; [|done].
  apply releases_of_length in Hrel.
  destruct releases as [|release_first releases].
  { exists items. split; [done|]. by apply no_release_iff. }
  exists items. split; [done|].
  split; [|rewrite <- no_release_iff; simpl in Hrel; lia].
  rewrite <- Hrel. unfold dict_union.
  match goal with |- context [extra_fields ?i] =>
    assert (Hrel' : assoc "releases" (extra_fields i) = None);
    [|generalize dependent (extra_fields i); intros extras Hrel']
  end.
  { apply assoc_extra_fields. unfold EXTRA_KEYS.
    rewrite !elem_of_cons, elem_of_nil. naive_solver. }
  rewrite assoc_app. rewrite !filter_cons, filter_nil. simpl.
  rewrite (decide_True (P := assoc "releases" extras = None)) by done.
  repeat case_decide; simpl; done.
Qed.

(** Every record the generator yields is the rendering of a cached file. *)
Lemma iterate_over_yields dir fs names record :
  record ∈ fst (iterate_over dir fs names) →
  ∃ name extension_data,
    name ∈ names ∧
    fs !! joinpath (PACKAGE_INFO_CACHE dir) name = Some (PackedData extension_data) ∧
    render extension_data = Yielded record.
Proof.
  induction names as [|name names IH]; simpl; [by intros ?%elem_of_nil|].
  destruct (fs !! _) as [[|extension_data|]|] eqn:Hfile;
    try by intros ?%elem_of_nil.
  destruct (render extension_data) as [record'| |] eqn:Hrender.
  - destruct (iterate_over dir fs names) as [records raised]. simpl in *.
    intros [->|Hin]%elem_of_cons.
    + exists name, extension_data. split; [by left|done].
    + destruct (IH Hin) as (n & d & ? & ? & ?). exists n, d.
      split; [by right|done].
  - intros Hin. destruct (IH Hin) as (n & d & ? & ? & ?). exists n, d.
    split; [by right|done].
  - by intros ?%elem_of_nil.
Qed.


(** The theorem at work: one release out of two versions, and a package
    that is skipped. *)
Example render_released :
  render Sample.released_json = Yielded Sample.released_record.
Proof. reflexivity. Qed.

Example render_yanked : render Sample.yanked_json = Skipped.
Proof. reflexivity. Qed.
End rendering.


(** ** The cache directory of the two scripts *)

Section cache_directory.
Variable LOCAL_CACHE_PATH : path.

Lemma child_of_other_directory (dir : path) (a b name : string) :
  a ≠ b → child_of (dir ++ [a]) (dir ++ [b; name]) = None.
Proof.
  intros Hab. induction dir as [|d dir IH]; simpl.
  - by rewrite decide_False.
  - by rewrite decide_True.
Qed.

(** The directory the crawler writes to is not the one the renderer reads. *)
Lemma cache_directories_differ :
  QueryPypi.PACKAGE_INFO_CACHE LOCAL_CACHE_PATH
  ≠ RefreshMetadata.PACKAGE_INFO_CACHE LOCAL_CACHE_PATH.
Proof.
  unfold QueryPypi.PACKAGE_INFO_CACHE, RefreshMetadata.PACKAGE_INFO_CACHE, joinpath.
  by intros [_ ?]%app_inj_tail.
Qed.

(** No cache file of the crawler is a file of the renderer's directory. *)
Lemma crawler_file_not_globbed package :
  child_of (RefreshMetadata.PACKAGE_INFO_CACHE LOCAL_CACHE_PATH)
           (QueryPypi.package_info_cache LOCAL_CACHE_PATH package) = None.
Proof.
  unfold QueryPypi.package_info_cache, QueryPypi.PACKAGE_INFO_CACHE,
    RefreshMetadata.PACKAGE_INFO_CACHE, joinpath.
  rewrite <- app_assoc. by apply child_of_other_directory.
Qed.
End cache_directory.

(** C5 fails on the code: after a crawl that caches [saltext-foo], the
    renderer, with the same [LOCAL_CACHE_PATH], yields nothing; it yields the
    record when the same data lies in [pypi-packages-info]. *)
Theorem renderer_misses_crawler_cache :
  files Sample.after_crawl !! QueryPypi.package_info_cache Sample.cache "saltext-foo"
  = Some (PackedData Sample.released_json) ∧
  glob_msgpack (QueryPypi.PACKAGE_INFO_CACHE Sample.cache) (files Sample.after_crawl)
  = ["saltext-foo.msgpack"] ∧
  RefreshMetadata.iterate_pypi_cache Sample.cache (files Sample.after_crawl)
  = ([], false) ∧
  RefreshMetadata.iterate_pypi_cache Sample.cache Sample.renderer_cache
  = ([Sample.released_record], false).
Proof. repeat split; reflexivity. Qed.

(** ** The limiter and the number of running lookups *)

Section limiter.
Import QueryPypi.
Variables (capacity : nat) (skip : string → bool).

(** The loop starts every task it reaches and holds no token afterwards. *)
Lemma nursery_starts_all todo : ∀ tasks,
  (0 < capacity)%nat →
  Forall (λ p, skip p = false) todo →
  rtc (nursery_step capacity skip)
      (NurseryState todo AtLoopHead 0 tasks)
      (NurseryState [] AtLoopHead 0 (tasks ++ todo)).
Proof.
  induction todo as [|p todo IH]; intros tasks Hcap Hskip.
  - rewrite app_nil_r. apply rtc_refl.
  - apply Forall_cons in Hskip as [Hp Hskip].
    eapply rtc_l; [by apply step_acquire|].
    eapply rtc_l; [apply step_start_soon_release|].
    replace (tasks ++ p :: todo) with ((tasks ++ [p]) ++ todo)
      by (by rewrite <- app_assoc).
    by apply IH.
Qed.

(** The limiter does bound something: the tokens in use. *)
Lemma nursery_tokens st st' :
  nursery_step capacity skip st st' →
  (borrowed_tokens st ≤ capacity)%nat →
  (borrowed_tokens st' ≤ capacity)%nat.
Proof. destruct 1; simpl; lia. Qed.
End limiter.

(** C4 fails on the code: with 1501 packages and the limiter of 1500 tokens,
    the nursery reaches a state in which 1501 lookups are running and no
    token is in use. *)
Theorem limiter_does_not_bound_lookups :
  ∃ st,
    rtc (QueryPypi.nursery_step QueryPypi.concurrency (λ _, false))
        (QueryPypi.nursery_start Sample.many_packages) st ∧
    length (QueryPypi.running st) = 1501%nat ∧
    QueryPypi.borrowed_tokens st = 0%nat ∧
    (QueryPypi.concurrency < length (QueryPypi.running st))%nat.
Proof.
  exists (QueryPypi.NurseryState [] QueryPypi.AtLoopHead 0 Sample.many_packages).
  assert (Hlen : length Sample.many_packages = 1501%nat).
  { unfold Sample.many_packages. by rewrite length_fmap, length_seq. }
  split; [|split; [exact Hlen|split; [reflexivity|]]].
  - apply (nursery_starts_all QueryPypi.concurrency (λ _, false)
             Sample.many_packages []).
    + unfold QueryPypi.concurrency. lia.
    + by apply Forall_forall.
  - change (QueryPypi.concurrency < length Sample.many_packages)%nat.
    rewrite Hlen. unfold QueryPypi.concurrency. lia.
Qed.


(** * Further properties *)

(** ** The index step, off the main path *)

Section index_step_edges.
Import QueryPypi.
Variables (LOCAL_CACHE_PATH STATE_DIR : path).
Local Abbreviation download_pypi_simple_index :=
  (QueryPypi.download_pypi_simple_index LOCAL_CACHE_PATH STATE_DIR).
Local Abbreviation package_info_cache :=
  (QueryPypi.package_info_cache LOCAL_CACHE_PATH).

(** The run on a listing, with the two loops left as they are. *)
Lemma download_pypi_simple_index_200 s index_info w r n e names :
  s (index_request index_info) = Responded r →
  status_code r = 200 →
  content_length r = Some n →
  response_etag r = Some e →
  anchors r = Some names →
  download_pypi_simple_index s (index_info, w)
  = let '(old, _, added) :=
      foldl diff_step (dom (packages index_info), ∅, packages index_info) names in
    let '(kept, fs) :=
      foldl (remove_step LOCAL_CACHE_PATH)
            (added, <[joinpath STATE_DIR "pypi-index-etag" := Text e]> (files w))
            (elements old) in
    (Some tt,
     (Index (Some e) (index_sha256sum index_info) kept,
      World fs (sent w ++ [index_request index_info]))).
Proof.
  intros Hs H200 Hlen Hetag Hnames.
  unfold QueryPypi.download_pypi_simple_index. unfold_monad. simpl.
  rewrite Hs, Hlen, Hetag, Hnames.
  rewrite decide_False by lia. rewrite decide_False by (intros ?; lia). simpl.
  destruct (foldl diff_step _ names) as [[old new] added]. simpl.
  by destruct (foldl (remove_step LOCAL_CACHE_PATH) _ (elements old)).
Qed.

(** Any status other than 200 and 304 ends the step at once: the index and
    the files are what they were. *)
Theorem index_error_status s index_info w r :
  s (index_request index_info) = Responded r →
  status_code r ≠ 200 →
  download_pypi_simple_index s (index_info, w)
  = (Some tt, (index_info, World (files w) (sent w ++ [index_request index_info]))).
Proof.
  intros Hs Hst. unfold QueryPypi.download_pypi_simple_index.
  unfold_monad. simpl. rewrite Hs.
  destruct (decide (status_code r = 304)); [done|]. by rewrite decide_True.
Qed.

(** A 200 answer without a readable Content-Length raises before anything
    is stored. *)
Theorem index_without_length s index_info w r :
  s (index_request index_info) = Responded r →
  status_code r = 200 →
  content_length r = None →
  download_pypi_simple_index s (index_info, w)
  = (None, (index_info, World (files w) (sent w ++ [index_request index_info]))).
Proof.
  intros Hs Hst Hlen. unfold QueryPypi.download_pypi_simple_index.
  unfold_monad. simpl. rewrite Hs, Hlen.
  rewrite decide_False by lia. by rewrite decide_False by (intros ?; lia).
Qed.

(** A 200 answer without an etag raises when the etag is written to the
    state directory: by then the stored etag has been replaced by [None],
    while the package map and the files are what they were. *)
Theorem index_without_etag s index_info w r n :
  s (index_request index_info) = Responded r →
  status_code r = 200 →
  content_length r = Some n →
  response_etag r = None →
  download_pypi_simple_index s (index_info, w)
  = (None,
     (Index None (index_sha256sum index_info) (packages index_info),
      World (files w) (sent w ++ [index_request index_info]))).
Proof.
  intros Hs Hst Hlen Hetag. unfold QueryPypi.download_pypi_simple_index.
  unfold_monad. simpl. rewrite Hs, Hlen, Hetag.
  rewrite decide_False by lia. by rewrite decide_False by (intros ?; lia).
Qed.

(** The etag cycle of the index: after a listing the answer's etag is the
    stored etag and the content of the state file, and, when it is not
    empty, the next index request is conditional on it. *)
Theorem index_etag_cycle s index_info w r n e names :
  s (index_request index_info) = Responded r →
  status_code r = 200 →
  content_length r = Some n →
  response_etag r = Some e →
  anchors r = Some names →
  let st' := snd (download_pypi_simple_index s (index_info, w)) in
  index_etag (fst st') = Some e ∧
  files (snd st') !! joinpath STATE_DIR "pypi-index-etag" = Some (Text e) ∧
  (e ≠ "" →
   index_request (fst st') = Get "https://pypi.org/simple/" {[ "If-None-Match" := e ]}).
Proof.
  intros Hs H200 Hlen Hetag Hnames.
  rewrite (download_pypi_simple_index_200 s index_info w r n e names) by done.
  destruct (foldl diff_step _ names) as [[old new] added].
  pose proof (remove_fold LOCAL_CACHE_PATH (elements old) added
                (<[joinpath STATE_DIR "pypi-index-etag" := Text e]> (files w))) as Hrem.
  destruct (foldl (remove_step LOCAL_CACHE_PATH) _ (elements old)) as [kept fs].
  destruct Hrem as (_ & _ & Hframe & _). simpl.
  split; [done|]. split.
  - rewrite Hframe; [apply lookup_insert_eq|].
    intros p _. by apply state_file_not_cache.
  - intros He. unfold index_request, index_headers. simpl.
    by destruct (String.eqb_spec e "").
Qed.

End index_step_edges.

Lemma index_error_status_witness :
  QueryPypi.download_pypi_simple_index Sample.cache Sample.state
    (λ _, Responded Sample.server_error) (Sample.cached_index, Sample.before)
  = (Some tt,
     (Sample.cached_index,
      World (files Sample.before)
            (sent Sample.before ++ [QueryPypi.index_request Sample.cached_index]))).
Proof.
  apply (index_error_status Sample.cache Sample.state
           (λ _, Responded Sample.server_error) Sample.cached_index Sample.before
           Sample.server_error); [reflexivity|discriminate].
Defined.

Lemma index_without_length_witness :
  QueryPypi.download_pypi_simple_index Sample.cache Sample.state
    (λ _, Responded Sample.no_length) (Sample.cached_index, Sample.before)
  = (None,
     (Sample.cached_index,
      World (files Sample.before)
            (sent Sample.before ++ [QueryPypi.index_request Sample.cached_index]))).
Proof.
  apply (index_without_length Sample.cache Sample.state
           (λ _, Responded Sample.no_length) Sample.cached_index Sample.before
           Sample.no_length); reflexivity.
Defined.

Lemma index_without_etag_witness :
  QueryPypi.download_pypi_simple_index Sample.cache Sample.state
    (λ _, Responded Sample.no_etag) (Sample.cached_index, Sample.before)
  = (None,
     (Index None (index_sha256sum Sample.cached_index) (packages Sample.cached_index),
      World (files Sample.before)
            (sent Sample.before ++ [QueryPypi.index_request Sample.cached_index]))).
Proof.
  apply (index_without_etag Sample.cache Sample.state
           (λ _, Responded Sample.no_etag) Sample.cached_index Sample.before
           Sample.no_etag 64); reflexivity.
Defined.


Lemma index_etag_cycle_witness :
  let st' := snd (QueryPypi.download_pypi_simple_index Sample.cache Sample.state
                    (λ _, Responded Sample.listing)
                    (Sample.cached_index, Sample.before)) in
  index_etag (fst st') = Some "W/1" ∧
  files (snd st') !! joinpath Sample.state "pypi-index-etag" = Some (Text "W/1") ∧
  ("W/1" ≠ "" →
   QueryPypi.index_request (fst st')
   = Get "https://pypi.org/simple/" {[ "If-None-Match" := "W/1" ]}).
Proof.
  apply (index_etag_cycle Sample.cache Sample.state
           (λ _, Responded Sample.listing) Sample.cached_index Sample.before
           Sample.listing 64 "W/1" ["saltext-foo"; "requests"]); reflexivity.
Defined.


(** ** One lookup, off the main path *)

Section package_step_edges.
Import QueryPypi.
Variable LOCAL_CACHE_PATH : path.
Variables KNOWN_SALT_EXTENSIONS KNOWN_NOT_SALT_EXTENSIONS : gset string.
Local Abbreviation package_info_cache :=
  (QueryPypi.package_info_cache LOCAL_CACHE_PATH).
Local Abbreviation is_salt_extension :=
  (QueryPypi.is_salt_extension KNOWN_SALT_EXTENSIONS KNOWN_NOT_SALT_EXTENSIONS).
Local Abbreviation skipped_in_fast_mode :=
  (QueryPypi.skipped_in_fast_mode KNOWN_SALT_EXTENSIONS KNOWN_NOT_SALT_EXTENSIONS).
Local Abbreviation download_package_info :=
  (QueryPypi.download_package_info LOCAL_CACHE_PATH
     KNOWN_SALT_EXTENSIONS KNOWN_NOT_SALT_EXTENSIONS).

(** A request that times out is logged and dropped: the lookup returns, and
    the entry (its etag included) and the files are what they were. *)
Theorem lookup_timeout s package entry w h :
  marked_not_found entry = false →
  conditional_headers (default VNone (entry !! "etag")) = Some h →
  s (Get (package_url package) h) = TimedOut →
  download_package_info s package (entry, w)
  = (Some tt, (entry, World (files w) (sent w ++ [Get (package_url package) h]))).
Proof.
  intros Hfound Hh Hs. unfold QueryPypi.download_package_info. unfold_monad. simpl.
  rewrite Hfound, Hh. simpl. by rewrite Hs.
Qed.

(** An answer that is neither 200, 304 nor 404 (a server error, say) removes
    the cache file and stores the answer's etag, and does not mark the
    package: it is asked for again on the next run. *)
Theorem lookup_error_status s package entry w h req :
  marked_not_found entry = false →
  conditional_headers (default VNone (entry !! "etag")) = Some h →
  s (Get (package_url package) h) = Responded req →
  status_code req ≠ 200 → status_code req ≠ 304 → status_code req ≠ 404 →
  ∃ entry',
    download_package_info s package (entry, w)
    = (Some tt,
       (entry', World (delete (package_info_cache package) (files w))
                      (sent w ++ [Get (package_url package) h]))) ∧
    entry' = <["etag" := optional_str (response_etag req)]> entry ∧
    marked_not_found entry' = false.
Proof.
  intros Hfound Hh Hs H200 H304 H404.
  unfold QueryPypi.download_package_info. unfold_monad. simpl.
  rewrite Hfound, Hh. simpl. rewrite Hs. simpl.
  rewrite decide_False by done. rewrite decide_True by done.
  rewrite decide_False by done. simpl.
  eexists. split; [reflexivity|]. split; [done|].
  unfold marked_not_found in *. by rewrite lookup_insert_ne.
Qed.

(** A 200 answer whose JSON is empty (falsy) removes the cache file. *)
Theorem lookup_empty_data s package entry w h req data :
  marked_not_found entry = false →
  conditional_headers (default VNone (entry !! "etag")) = Some h →
  s (Get (package_url package) h) = Responded req →
  status_code req = 200 →
  json req = Some data →
  truthy data = false →
  download_package_info s package (entry, w)
  = (Some tt,
     (<["etag" := optional_str (response_etag req)]> entry,
      World (delete (package_info_cache package) (files w))
            (sent w ++ [Get (package_url package) h]))).
Proof.
  intros Hfound Hh Hs H200 Hjson Hdata.
  unfold QueryPypi.download_package_info. unfold_monad. simpl.
  rewrite Hfound, Hh. simpl. rewrite Hs. simpl.
  rewrite decide_False by lia. rewrite decide_False by (intros ?; lia).
  rewrite Hjson. simpl. by rewrite Hdata.
Qed.

(** Whatever the answer, the entry afterwards holds the etag of the answer. *)
Lemma answered_entry s package entry w h req :
  marked_not_found entry = false →
  conditional_headers (default VNone (entry !! "etag")) = Some h →
  s (Get (package_url package) h) = Responded req →
  fst (snd (download_package_info s package (entry, w))) !! "etag"
  = Some (optional_str (response_etag req)) ∧
  (status_code req ≠ 404 →
   fst (snd (download_package_info s package (entry, w)))
   = <["etag" := optional_str (response_etag req)]> entry).
Proof.
  intros Hfound Hh Hs.
  unfold QueryPypi.download_package_info. unfold_monad. simpl.
  rewrite Hfound, Hh. simpl. rewrite Hs. simpl.
  repeat (case_decide; simpl);
    try (destruct (json req) as [data|]; simpl);
    try (destruct (truthy data); simpl);
    try (destruct (is_salt_extension package data) as [[]|]; simpl);
    (split; [|done]);
    rewrite ?(lookup_insert_ne _ "not-found" "etag") by done;
    apply lookup_insert_eq.
Qed.

(** The etag cycle of a package: after an answer other than 404 the next
    lookup sends one request, conditional on the etag of that answer when it
    has a non-empty one and unconditional otherwise. *)
Theorem lookup_etag_cycle s package entry w h req :
  marked_not_found entry = false →
  conditional_headers (default VNone (entry !! "etag")) = Some h →
  s (Get (package_url package) h) = Responded req →
  status_code req ≠ 404 →
  requests_of package (fst (snd (download_package_info s package (entry, w))))
  = [Get (package_url package) (index_headers (response_etag req))].
Proof.
  intros Hfound Hh Hs H404.
  destruct (answered_entry s package entry w h req Hfound Hh Hs) as [_ Hentry].
  rewrite (Hentry H404). unfold requests_of, marked_not_found in *.
  rewrite lookup_insert_ne by done. rewrite Hfound, lookup_insert_eq. simpl.
  destruct (response_etag req) as [e|]; simpl; [|done].
  unfold conditional_headers. simpl. by destruct (String.eqb e "").
Qed.


(** A lookup sends at most one request, to the JSON address of its package,
    and changes no file but the cache file of its package. *)
Theorem lookup_stays_local s package entry w :
  let w' := snd (snd (download_package_info s package (entry, w))) in
  sent w' = sent w ++ requests_of package entry ∧
  (length (requests_of package entry) ≤ 1)%nat ∧
  Forall (λ r, url r = package_url package) (requests_of package entry) ∧
  ∀ q, q ≠ package_info_cache package → files w' !! q = files w !! q.
Proof.
  destruct (download_package_info_effects LOCAL_CACHE_PATH KNOWN_SALT_EXTENSIONS
              KNOWN_NOT_SALT_EXTENSIONS s package entry w)
    as (res & entry' & fs' & -> & Hframe & _).
  simpl. split; [done|]. split; [|split; [apply requests_of_url|done]].
  unfold requests_of. destruct (marked_not_found entry); simpl; [lia|].
  destruct (conditional_headers _); simpl; lia.
Qed.
End package_step_edges.

Lemma lookup_timeout_witness :
  QueryPypi.download_package_info Sample.cache ∅ ∅ (λ _, TimedOut) "requests"
    (Sample.with_etag, Sample.requests_cached)
  = (Some tt,
     (Sample.with_etag,
      World (files Sample.requests_cached)
            (sent Sample.requests_cached
             ++ [Get (QueryPypi.package_url "requests") {[ "If-None-Match" := "r1" ]}]))).
Proof.
  apply (lookup_timeout Sample.cache ∅ ∅ (λ _, TimedOut) "requests"
           Sample.with_etag Sample.requests_cached); reflexivity.
Defined.

Lemma lookup_error_status_witness :
  ∃ entry',
    QueryPypi.download_package_info Sample.cache ∅ ∅
      (λ _, Responded (Sample.answer 503 None)) "requests"
      (Sample.with_etag, Sample.requests_cached)
    = (Some tt,
       (entry',
        World (delete (QueryPypi.package_info_cache Sample.cache "requests")
                      (files Sample.requests_cached))
              (sent Sample.requests_cached
               ++ [Get (QueryPypi.package_url "requests")
                       {[ "If-None-Match" := "r1" ]}]))) ∧
    entry' = <["etag" := QueryPypi.optional_str
                           (response_etag (Sample.answer 503 None))]> Sample.with_etag ∧
    QueryPypi.marked_not_found entry' = false.
Proof.
  apply (lookup_error_status Sample.cache ∅ ∅
           (λ _, Responded (Sample.answer 503 None)) "requests"
           Sample.with_etag Sample.requests_cached _ (Sample.answer 503 None));
    (reflexivity || discriminate).
Defined.

Lemma lookup_empty_data_witness :
  QueryPypi.download_package_info Sample.cache ∅ ∅
    (λ _, Responded (Sample.answer 200 (Some (VDict [])))) "requests"
    (Sample.with_etag, Sample.requests_cached)
  = (Some tt,
     (<["etag" := QueryPypi.optional_str
                    (response_etag (Sample.answer 200 (Some (VDict []))))]>
        Sample.with_etag,
      World (delete (QueryPypi.package_info_cache Sample.cache "requests")
                    (files Sample.requests_cached))
            (sent Sample.requests_cached
             ++ [Get (QueryPypi.package_url "requests") {[ "If-None-Match" := "r1" ]}]))).
Proof.
  apply (lookup_empty_data Sample.cache ∅ ∅
           (λ _, Responded (Sample.answer 200 (Some (VDict [])))) "requests"
           Sample.with_etag Sample.requests_cached _
           (Sample.answer 200 (Some (VDict []))) (VDict [])); reflexivity.
Defined.

Lemma lookup_etag_cycle_witness :
  QueryPypi.requests_of "requests"
    (fst (snd (QueryPypi.download_package_info Sample.cache ∅ ∅
                 (λ _, Responded (Sample.answer 200 (Some Sample.plain_json)))
                 "requests" (Sample.with_etag, Sample.requests_cached))))
  = [Get (QueryPypi.package_url "requests")
         (QueryPypi.index_headers
            (response_etag (Sample.answer 200 (Some Sample.plain_json))))].
Proof.
  apply (lookup_etag_cycle Sample.cache ∅ ∅
           (λ _, Responded (Sample.answer 200 (Some Sample.plain_json)))
           "requests" Sample.with_etag Sample.requests_cached
           {[ "If-None-Match" := "r1" ]}); (reflexivity || discriminate).
Defined.



(** ** Names, stems and the glob *)

Lemma child_of_spec dir : ∀ p name,
  child_of dir p = Some name ↔ p = dir ++ [name].
Proof.
  induction dir as [|d dir IH]; intros p name; simpl.
  - destruct p as [|c [|c' p]]; split; intros H; simplify_eq; done.
  - destruct p as [|c p]; [split; intros H; simplify_eq|].
    destruct (decide (d = c)) as [->|Hne].
    + rewrite IH. split; intros H; simplify_eq; done.
    + split; intros H; simplify_eq.
Qed.

(** [glob("*.msgpack")] gives exactly the names of the files of the
    directory that end in [.msgpack]: files of other directories and of
    sub-directories, and other names, are left out. *)
Theorem glob_msgpack_spec dir fs name :
  name ∈ glob_msgpack dir fs ↔
  is_Some (fs !! joinpath dir name) ∧ ends_with ".msgpack" name = true.
Proof.
  unfold glob_msgpack. rewrite list_elem_of_filter, list_elem_of_omap.
  split.
  - intros [Hends (p & Hp & Hchild)]. split; [|done].
    apply child_of_spec in Hchild. subst p.
    apply list_elem_of_fmap in Hp as ([p c] & Heq & Hpc).
    simpl in Heq. subst p.
    apply elem_of_map_to_list in Hpc. by exists c.
  - intros [[c Hc] Hends]. split; [done|].
    exists (joinpath dir name). split; [|by apply child_of_spec].
    apply list_elem_of_fmap. exists (joinpath dir name, c).
    split; [done|]. by apply elem_of_map_to_list.
Qed.

Lemma before_last_dot_msgpack p :
  before_last_dot (p +:+ ".msgpack") = Some p.
Proof.
  induction p as [|a p IH]; [done|].
  change (String a p +:+ ".msgpack") with (String a (p +:+ ".msgpack")).
  simpl. by rewrite IH.
Qed.

Lemma length_append a b :
  String.length (a +:+ b) = (String.length a + String.length b)%nat.
Proof.
  induction a as [|c a IH]; [done|].
  change (String c a +:+ b) with (String c (a +:+ b)). simpl. by rewrite IH.
Qed.

(** The stem of the cache file of a package is the package: the file the
    hash step reads back, [stem + ".msgpack"], is the file the glob found. *)
Theorem stem_of_cache_name p :
  p ≠ "" → stem (p +:+ ".msgpack") = p.
Proof.
  destruct p as [|a p]; [done|]. intros _.
  change (String a p +:+ ".msgpack") with (String a (p +:+ ".msgpack")).
  unfold stem. rewrite before_last_dot_msgpack, length_append.
  replace (Nat.eqb _ _) with false; [done|].
  symmetry. apply Nat.eqb_neq. simpl. lia.
Qed.

Lemma stem_of_cache_name_witness : stem ("saltext.foo" +:+ ".msgpack") = "saltext.foo".
Proof. apply (stem_of_cache_name "saltext.foo"). discriminate. Defined.

(** ** The per-package stage as a whole *)

Section collect_more.
Import QueryPypi.
Variables (LOCAL_CACHE_PATH STATE_DIR : path).
Variables KNOWN_SALT_EXTENSIONS KNOWN_NOT_SALT_EXTENSIONS : gset string.
Variable py_hash : string → value → Z.
Local Abbreviation package_info_cache :=
  (QueryPypi.package_info_cache LOCAL_CACHE_PATH).
Local Abbreviation download_package_info :=
  (QueryPypi.download_package_info LOCAL_CACHE_PATH
     KNOWN_SALT_EXTENSIONS KNOWN_NOT_SALT_EXTENSIONS).
Local Abbreviation skipped_in_fast_mode :=
  (QueryPypi.skipped_in_fast_mode KNOWN_SALT_EXTENSIONS KNOWN_NOT_SALT_EXTENSIONS).
Local Abbreviation nursery :=
  (QueryPypi.nursery LOCAL_CACHE_PATH KNOWN_SALT_EXTENSIONS KNOWN_NOT_SALT_EXTENSIONS).
Local Abbreviation known_extensions_hash :=
  (QueryPypi.known_extensions_hash LOCAL_CACHE_PATH STATE_DIR py_hash).
Local Abbreviation collect_packages_information :=
  (QueryPypi.collect_packages_information LOCAL_CACHE_PATH STATE_DIR
     KNOWN_SALT_EXTENSIONS KNOWN_NOT_SALT_EXTENSIONS py_hash).

(** What the nursery keeps: the keys of the package map, the etag and the
    hash of the index, every file that is not a cache file; and what it
    sends: requests for packages it does not skip. *)
Lemma nursery_invariants s opts todo : ∀ st,
  let st' := snd (nursery s opts todo st) in
  dom (packages (fst st')) = dom (packages (fst st)) ∧
  index_etag (fst st') = index_etag (fst st) ∧
  index_sha256sum (fst st') = index_sha256sum (fst st) ∧
  (∀ q, (∀ p, q ≠ package_info_cache p) →
        files (snd st') !! q = files (snd st) !! q) ∧
  ∃ reqs, sent (snd st') = sent (snd st) ++ reqs ∧
          Forall (λ r, ∃ p, fast opts && skipped_in_fast_mode p = false ∧
                            url r = package_url p) reqs.
Proof.
  clear py_hash STATE_DIR.
  induction todo as [|q todo IH]; intros st.
  - simpl. repeat split; try done. exists []. by rewrite app_nil_r.
  - rewrite nursery_cons.
    destruct (fast opts && skipped_in_fast_mode q) eqn:Hskip; [apply IH|].
    unfold on_entry. destruct (packages (fst st) !! q) as [e|] eqn:Hq.
    2:{ simpl. repeat split; try done. exists []. by rewrite app_nil_r. }
    destruct (download_package_info_effects LOCAL_CACHE_PATH KNOWN_SALT_EXTENSIONS
                KNOWN_NOT_SALT_EXTENSIONS s q e (snd st))
      as (res & e' & fs' & -> & Hframe & _).
    set (st1 := (Index (index_etag (fst st)) (index_sha256sum (fst st))
                       (<[q:=e']> (packages (fst st))),
                 World fs' (sent (snd st) ++ requests_of q e))).
    assert (Hdom1 : dom (packages (fst st1)) = dom (packages (fst st))).
    { simpl. rewrite dom_insert_L.
      assert (q ∈ dom (packages (fst st))) by (apply elem_of_dom; eauto).
      set_solver. }
    assert (Hreqs1 : Forall (λ r, ∃ p, fast opts && skipped_in_fast_mode p = false ∧
                                       url r = package_url p) (requests_of q e)).
    { eapply Forall_impl; [apply requests_of_url|]. intros r Hr. by exists q. }
    destruct res as [[]|].
    + destruct (IH st1) as (Hdom & Hetag & Hsha & Hfiles & reqs & Hsent & Hall).
      simpl. rewrite Hdom, Hetag, Hsha. repeat split; try done.
      * intros x Hx. rewrite Hfiles by done. simpl. by apply Hframe.
      * exists (requests_of q e ++ reqs). rewrite Hsent. simpl.
        rewrite app_assoc. split; [done|]. by apply Forall_app.
    + simpl. repeat split; try done.
      * intros x Hx. by apply Hframe.
      * by exists (requests_of q e).
Qed.

(** The per-package stage never adds or removes a package and never
    touches the etag or the hash of the index. *)
Theorem collect_keeps_package_keys s opts st :
  let st' := snd (collect_packages_information s opts st) in
  dom (packages (fst st')) = dom (packages (fst st)) ∧
  index_etag (fst st') = index_etag (fst st) ∧
  index_sha256sum (fst st') = index_sha256sum (fst st).
Proof.
  rewrite collect_packages_information_eq.
  destruct (nursery_invariants s opts (elements (dom (packages (fst st)))) st)
    as (Hdom & Hetag & Hsha & _).
  destruct (nursery s opts _ st) as [r st1]. simpl in *.
  destruct (known_extensions_hash_effects LOCAL_CACHE_PATH STATE_DIR py_hash st1)
    as (res2 & fs2 & -> & _).
  by destruct res2 as [[]|].
Qed.

(** Under [--fast] the stage asks only for packages that are not excluded
    and that are included or carry one of the name prefixes. *)
Theorem fast_mode_requests s opts st :
  fast opts = true →
  ∃ reqs,
    sent (snd (snd (collect_packages_information s opts st)))
    = sent (snd st) ++ reqs ∧
    Forall (λ r, ∃ p, url r = package_url p ∧
                      p ∉ KNOWN_NOT_SALT_EXTENSIONS ∧
                      (p ∈ KNOWN_SALT_EXTENSIONS ∨
                       startswith p PACKAGE_NAME_PREFIXES = true)) reqs.
Proof.
  intros Hfast. rewrite collect_packages_information_eq.
  destruct (nursery_invariants s opts (elements (dom (packages (fst st)))) st)
    as (_ & _ & _ & _ & reqs & Hsent & Hall).
  destruct (nursery s opts _ st) as [r st1]. simpl in *.
  destruct (known_extensions_hash_effects LOCAL_CACHE_PATH STATE_DIR py_hash st1)
    as (res2 & fs2 & -> & _).
  exists reqs. split; [by destruct res2 as [[]|]|].
  eapply Forall_impl; [done|]. intros r0 (p & Hp & Hurl). exists p.
  split; [done|]. rewrite Hfast in Hp. simpl in Hp.
  unfold QueryPypi.skipped_in_fast_mode in Hp.
  apply orb_false_iff in Hp as [Hex Hname].
  apply bool_decide_eq_false in Hex. apply negb_false_iff in Hname.
  split; [done|]. apply orb_true_iff in Hname as [Hin|Hpre]; [|by right].
  left. by apply bool_decide_eq_true in Hin.
Qed.
(** The stage changes no file but cache files and the hash file. *)
Lemma collect_frame s opts st q :
  q ≠ joinpath STATE_DIR "known-extensions-hash" →
  (∀ p, q ≠ package_info_cache p) →
  files (snd (snd (collect_packages_information s opts st))) !! q
  = files (snd st) !! q.
Proof.
  intros Hq Hcache. rewrite collect_packages_information_eq.
  destruct (nursery_invariants s opts (elements (dom (packages (fst st)))) st)
    as (_ & _ & _ & Hfiles & _).
  destruct (nursery s opts _ st) as [r st1]. simpl in *.
  destruct (known_extensions_hash_effects LOCAL_CACHE_PATH STATE_DIR py_hash st1)
    as (res2 & fs2 & -> & Hframe).
  rewrite <- Hfiles by done. rewrite <- (Hframe q) by done.
  by destruct res2 as [[]|].
Qed.

(** With no cached package there is nothing to hash: the [reduce] over the
    empty list raises, the exception is caught, and the hash file is left
    as it is. *)
Theorem hash_of_empty_cache st :
  (∀ name, ends_with ".msgpack" name = true →
           files (snd st) !! joinpath (PACKAGE_INFO_CACHE LOCAL_CACHE_PATH) name = None) →
  known_extensions_hash st = (Some tt, st).
Proof.
  intros Hempty. unfold QueryPypi.known_extensions_hash.
  assert (glob_msgpack (PACKAGE_INFO_CACHE LOCAL_CACHE_PATH) (files (snd st)) = [])
    as Hglob.
  { destruct (glob_msgpack _ _) as [|name names] eqn:Hg; [done|].
    assert (name ∈ glob_msgpack (PACKAGE_INFO_CACHE LOCAL_CACHE_PATH) (files (snd st)))
      as Hin by (rewrite Hg; by left).
    apply glob_msgpack_spec in Hin as [[c Hc] Hends].
    by rewrite Hempty in Hc. }
  unfold_monad. simpl. rewrite Hglob. simpl.
  rewrite dom_empty_L, elements_empty. by destruct st as [i []].
Qed.
End collect_more.

Lemma fast_mode_requests_witness :
  ∃ reqs,
    sent (snd (snd (QueryPypi.collect_packages_information Sample.cache Sample.state
                      ∅ ∅ Sample.no_hash Sample.crawl_net
                      (QueryPypi.Options true true)
                      (Sample.cached_index, Sample.before))))
    = sent Sample.before ++ reqs ∧
    Forall (λ r, ∃ p, url r = QueryPypi.package_url p ∧
                      p ∉ (∅ : gset string) ∧
                      (p ∈ (∅ : gset string) ∨
                       startswith p QueryPypi.PACKAGE_NAME_PREFIXES = true)) reqs.
Proof.
  apply (fast_mode_requests Sample.cache Sample.state ∅ ∅ Sample.no_hash
           Sample.crawl_net (QueryPypi.Options true true)
           (Sample.cached_index, Sample.before)).
  reflexivity.
Defined.

Lemma hash_of_empty_cache_witness :
  QueryPypi.known_extensions_hash Sample.cache Sample.state Sample.no_hash
    (Sample.cached_index, Sample.reloaded)
  = (Some tt, (Sample.cached_index, Sample.reloaded)).
Proof.
  apply (hash_of_empty_cache Sample.cache Sample.state Sample.no_hash
           (Sample.cached_index, Sample.reloaded)).
  intros name Hname. apply lookup_singleton_ne.
  unfold QueryPypi.local_pypi_index_info, QueryPypi.PACKAGE_INFO_CACHE, joinpath.
  simpl. congruence.
Defined.

(** ** The run as a whole *)

Section main_more.
Import QueryPypi.
Variables (LOCAL_CACHE_PATH STATE_DIR : path).
Variables KNOWN_SALT_EXTENSIONS KNOWN_NOT_SALT_EXTENSIONS : gset string.
Variable py_hash : string → value → Z.
Local Abbreviation local_pypi_index_info :=
  (QueryPypi.local_pypi_index_info LOCAL_CACHE_PATH).
Local Abbreviation package_info_cache :=
  (QueryPypi.package_info_cache LOCAL_CACHE_PATH).
Local Abbreviation get_index_info_enter :=
  (QueryPypi.get_index_info_enter LOCAL_CACHE_PATH).
Local Abbreviation get_index_info_exit :=
  (QueryPypi.get_index_info_exit LOCAL_CACHE_PATH).
Local Abbreviation download_pypi_simple_index :=
  (QueryPypi.download_pypi_simple_index LOCAL_CACHE_PATH STATE_DIR).
Local Abbreviation collect_packages_information :=
  (QueryPypi.collect_packages_information LOCAL_CACHE_PATH STATE_DIR
     KNOWN_SALT_EXTENSIONS KNOWN_NOT_SALT_EXTENSIONS py_hash).
Local Abbreviation main sha256_run :=
  (QueryPypi.main LOCAL_CACHE_PATH STATE_DIR
     KNOWN_SALT_EXTENSIONS KNOWN_NOT_SALT_EXTENSIONS sha256_run py_hash).

(** Saving and loading with an unchanged script is a round trip: the index
    that is written, etags included, is the index the next run starts
    from. *)
Theorem save_then_load ret h index_info w :
  returncode ret = 0 →
  sha256sum_of ret = Some h →
  let w' := snd (snd (get_index_info_exit (Some ret) (index_info, w))) in
  get_index_info_enter (Some ret) w'
  = (Some (Index (index_etag index_info) (Some h) (packages index_info)), w').
Proof.
  intros Hrc Hsha. simpl.
  apply (get_index_info_enter_same LOCAL_CACHE_PATH _ _ ret h); try done.
  unfold QueryPypi.get_index_info_exit. unfold_monad. simpl.
  rewrite decide_False by (intros ?; lia). rewrite Hsha. simpl.
  apply lookup_insert_eq.
Qed.

(** The index step changes no file but the etag state file and cache files. *)
Lemma index_step_frame s st q :
  q ≠ joinpath STATE_DIR "pypi-index-etag" →
  (∀ p, q ≠ package_info_cache p) →
  files (snd (snd (download_pypi_simple_index s st))) !! q = files (snd st) !! q.
Proof.
  intros Hq Hcache. unfold QueryPypi.download_pypi_simple_index.
  unfold_monad. simpl.
  destruct (s _) as [r| |]; simpl; try done.
  repeat (case_decide; simpl; try done).
  destruct (content_length r); simpl; [|done].
  destruct (response_etag r) as [e|]; simpl; [|done].
  destruct (anchors r) as [names|]; simpl; [|by rewrite lookup_insert_ne].
  destruct (foldl diff_step _ names) as [[old new] added]. simpl.
  pose proof (remove_fold LOCAL_CACHE_PATH (elements old) added
                (<[joinpath STATE_DIR "pypi-index-etag" := Text e]> (files (snd st))))
    as Hrem.
  destruct (foldl (remove_step LOCAL_CACHE_PATH) _ (elements old)) as [kept fs].
  destruct Hrem as (_ & _ & Hframe & _). simpl.
  rewrite Hframe by (intros p _; apply Hcache). by rewrite lookup_insert_ne.
Qed.

Lemma get_index_info_exit_frame sha256_run st q :
  q ≠ local_pypi_index_info →
  files (snd (snd (get_index_info_exit sha256_run st))) !! q = files (snd st) !! q.
Proof.
  intros Hq. unfold QueryPypi.get_index_info_exit. unfold_monad. simpl.
  destruct sha256_run as [ret|]; simpl; [|done].
  case_decide; simpl; [by rewrite lookup_insert_ne|].
  destruct (sha256sum_of ret); simpl; [|done]. by rewrite lookup_insert_ne.
Qed.

(** A run writes to four places only: the index file, the two state files
    and the per-package cache files.  Every other file is what it was. *)
Theorem main_touches_only_its_files sha256_run s opts w q :
  q ≠ local_pypi_index_info →
  q ≠ joinpath STATE_DIR "pypi-index-etag" →
  q ≠ joinpath STATE_DIR "known-extensions-hash" →
  (∀ p, q ≠ package_info_cache p) →
  files (snd (main sha256_run s opts w)) !! q = files w !! q.
Proof.
  intros Hlocal Hetag Hhash Hcache.
  rewrite (main_eq LOCAL_CACHE_PATH STATE_DIR KNOWN_SALT_EXTENSIONS
             KNOWN_NOT_SALT_EXTENSIONS sha256_run py_hash).
  pose proof (get_index_info_enter_world LOCAL_CACHE_PATH sha256_run w) as Hw.
  destruct (get_index_info_enter sha256_run w) as [[index_info|] w'];
    simpl in Hw; subst w'; [|done].
  pose proof (index_step_frame s (index_info, w) q Hetag Hcache) as Hstep.
  destruct (download_pypi_simple_index s (index_info, w)) as [[[]|] st1];
    simpl in Hstep.
  - pose proof (collect_frame LOCAL_CACHE_PATH STATE_DIR KNOWN_SALT_EXTENSIONS
                  KNOWN_NOT_SALT_EXTENSIONS py_hash s opts st1 q Hhash Hcache)
      as Hcollect.
    destruct (collect_packages_information s opts st1) as [r st]. simpl in Hcollect.
    pose proof (get_index_info_exit_frame sha256_run st q Hlocal) as Hexit.
    destruct (get_index_info_exit sha256_run st) as [[[]|] st']; simpl in *;
      congruence.
  - pose proof (get_index_info_exit_frame sha256_run st1 q Hlocal) as Hexit.
    destruct (get_index_info_exit sha256_run st1) as [[[]|] st']; simpl in *;
      congruence.
Qed.
(** The index is saved whatever the steps did: when the cache was loaded
    and the sha256 command works, the run ends with the index file written,
    carrying the hash of the script, also when a step raised. *)
Theorem main_saves_index ret h s opts w index_info :
  returncode ret = 0 →
  sha256sum_of ret = Some h →
  fst (get_index_info_enter (Some ret) w) = Some index_info →
  ∃ saved,
    files (snd (main (Some ret) s opts w)) !! local_pypi_index_info
    = Some (PackedIndex saved) ∧
    index_sha256sum saved = Some h.
Proof.
  intros Hrc Hsha Hload.
  rewrite (main_eq LOCAL_CACHE_PATH STATE_DIR KNOWN_SALT_EXTENSIONS
             KNOWN_NOT_SALT_EXTENSIONS (Some ret) py_hash).
  destruct (get_index_info_enter (Some ret) w) as [[index_info'|] w']; [|done].
  assert (Hexit : ∀ st, ∃ saved,
            get_index_info_exit (Some ret) st
            = (Some tt,
               (saved,
                World (<[local_pypi_index_info := PackedIndex saved]> (files (snd st)))
                      (sent (snd st)))) ∧
            index_sha256sum saved = Some h).
  { intros st. unfold QueryPypi.get_index_info_exit. unfold_monad. simpl.
    rewrite decide_False by (intros ?; lia). rewrite Hsha. simpl.
    eexists. split; [reflexivity|done]. }
  destruct (download_pypi_simple_index s (index_info', w')) as [[[]|] st1].
  - destruct (collect_packages_information s opts st1) as [r st].
    destruct (Hexit st) as (saved & -> & Hsaved). exists saved.
    split; [apply lookup_insert_eq|done].
  - destruct (Hexit st1) as (saved & -> & Hsaved). exists saved.
    split; [apply lookup_insert_eq|done].
Qed.

End main_more.

Lemma save_then_load_witness :
  let w' := snd (snd (QueryPypi.get_index_info_exit Sample.cache (Some Sample.sha_abc)
                        (Sample.cached_index, Sample.before))) in
  QueryPypi.get_index_info_enter Sample.cache (Some Sample.sha_abc) w'
  = (Some (Index (index_etag Sample.cached_index) (Some "abc")
                 (packages Sample.cached_index)), w').
Proof.
  apply (save_then_load Sample.cache Sample.sha_abc "abc"
           Sample.cached_index Sample.before); reflexivity.
Defined.

Lemma main_touches_only_its_files_witness :
  files (snd (QueryPypi.main Sample.cache Sample.state ∅ ∅ Sample.sha_ok
                Sample.no_hash Sample.crawl_net (QueryPypi.Options false true)
                Sample.second_run)) !! ["home"; "notes.txt"]
  = files Sample.second_run !! ["home"; "notes.txt"].
Proof.
  apply (main_touches_only_its_files Sample.cache Sample.state ∅ ∅ Sample.no_hash
           Sample.sha_ok Sample.crawl_net (QueryPypi.Options false true)
           Sample.second_run ["home"; "notes.txt"]); discriminate.
Defined.

Lemma main_saves_index_witness :
  ∃ saved,
    files (snd (QueryPypi.main Sample.cache Sample.state ∅ ∅ (Some Sample.sha_abc)
                  Sample.no_hash (λ _, Raised) (QueryPypi.Options false true)
                  Sample.reloaded)) !! QueryPypi.local_pypi_index_info Sample.cache
    = Some (PackedIndex saved) ∧
    index_sha256sum saved = Some "abc".
Proof.
  apply (main_saves_index Sample.cache Sample.state ∅ ∅ Sample.no_hash
           Sample.sha_abc "abc" (λ _, Raised) (QueryPypi.Options false true)
           Sample.reloaded (QueryPypi.invalidate Sample.cached_index));
    reflexivity.
Defined.


(** When the HTML of a 200 answer cannot be parsed the step raises after
    the new etag has been stored and written to the state file: the package
    map is not diffed, and the next request is conditional on the new
    etag. *)
Theorem index_unparsed dir state s index_info w r n e :
  s (QueryPypi.index_request index_info) = Responded r →
  status_code r = 200 →
  content_length r = Some n →
  response_etag r = Some e →
  anchors r = None →
  QueryPypi.download_pypi_simple_index dir state s (index_info, w)
  = (None,
     (Index (Some e) (index_sha256sum index_info) (packages index_info),
      World (<[joinpath state "pypi-index-etag" := Text e]> (files w))
            (sent w ++ [QueryPypi.index_request index_info]))).
Proof.
  intros Hs Hst Hlen Hetag Hnames. unfold QueryPypi.download_pypi_simple_index.
  unfold_monad. simpl. rewrite Hs, Hlen, Hetag, Hnames.
  rewrite decide_False by lia. by rewrite decide_False by (intros ?; lia).
Qed.

Lemma index_unparsed_witness :
  QueryPypi.download_pypi_simple_index Sample.cache Sample.state
    (λ _, Responded Sample.unparsable) (Sample.cached_index, Sample.before)
  = (None,
     (Index (Some "W/1") (index_sha256sum Sample.cached_index)
            (packages Sample.cached_index),
      World (<[joinpath Sample.state "pypi-index-etag" := Text "W/1"]>
               (files Sample.before))
            (sent Sample.before ++ [QueryPypi.index_request Sample.cached_index]))).
Proof.
  apply (index_unparsed Sample.cache Sample.state (λ _, Responded Sample.unparsable)
           Sample.cached_index Sample.before Sample.unparsable 64 "W/1");
    reflexivity.
Defined.

(** ** Names and summaries in the renderer *)

Section normal_names.
Import RefreshMetadata.

Lemma lower_not_separator a :
  is_separator a = false →
  is_separator (lower a) = false ∧ Ascii.eqb (lower a) "-" = false ∧
  Ascii.eqb (lower (lower a)) (lower a) = true.
Proof. destruct a as [[] [] [] [] [] [] [] []]; vm_compute; intros; done. Qed.

Lemma dash_is_separator a : Ascii.eqb a "-" = true → is_separator a = true.
Proof. unfold is_separator. by intros ->. Qed.

Lemma normalize_from_normal name : ∀ in_run,
  in_normal_form in_run (normalize_from in_run name) = true.
Proof.
  induction name as [|a name IH]; intros in_run; simpl; [done|].
  destruct (is_separator a) eqn:Hsep.
  - destruct in_run; simpl; [apply IH|]. by rewrite IH.
  - destruct (lower_not_separator a Hsep) as (Hsep' & Hdash & Hlow).
    simpl. by rewrite Hdash, Hsep', Hlow, IH.
Qed.

Lemma normal_form_fixed name : ∀ in_run,
  in_normal_form in_run name = true → normalize_from in_run name = name.
Proof.
  induction name as [|a name IH]; intros in_run; simpl; [done|].
  destruct (Ascii.eqb a "-") eqn:Hdash.
  - rewrite (dash_is_separator a Hdash).
    apply Ascii.eqb_eq in Hdash as ->.
    intros [Hrun Hrest]%andb_true_iff. apply negb_true_iff in Hrun as ->.
    by rewrite (IH true Hrest).
  - intros [[Hsep Hlow]%andb_true_iff Hrest]%andb_true_iff.
    apply negb_true_iff in Hsep. rewrite Hsep.
    apply Ascii.eqb_eq in Hlow. by rewrite Hlow, (IH false Hrest).
Qed.

(** Normalizing is idempotent: a normalized name is its own normal form. *)
Theorem normalize_idempotent name :
  normalize (normalize name) = normalize name.
Proof. apply normal_form_fixed, normalize_from_normal. Qed.

Lemma prefix_cons a b s t :
  String.prefix (String a s) (String b t)
  = if Ascii.ascii_dec a b then String.prefix s t else false.
Proof. reflexivity. Qed.

Lemma prefix_dash_cons s a t :
  Ascii.eqb a "-" = false → String.prefix (String "-" s) (String a t) = false.
Proof.
  intros Ha. rewrite prefix_cons. destruct (Ascii.ascii_dec "-" a) as [<-|]; [|done].
  by rewrite Ascii.eqb_refl in Ha.
Qed.

Lemma normal_form_chars name : ∀ after_dash,
  in_normal_form after_dash name = true →
  Forall (λ a, a ≠ "_"%char ∧ a ≠ "."%char ∧ lower a = a)
         (list_ascii_of_string name) ∧
  contains "--" name = false ∧
  (after_dash = true → String.prefix "-" name = false).
Proof.
  induction name as [|a name IH]; intros after_dash.
  { intros _. split; [done|]. split; [done|]. by destruct after_dash. }
  change (contains "--" (String a name))
    with (String.prefix "--" (String a name) || contains "--" name).
  cbn [in_normal_form list_ascii_of_string].
  destruct (Ascii.eqb a "-") eqn:Hdash.
  - apply Ascii.eqb_eq in Hdash as ->.
    intros [Hrun Hrest]%andb_true_iff. apply negb_true_iff in Hrun as ->.
    destruct (IH true Hrest) as (Hall & Hno & Hfirst).
    split; [by constructor|]. split; [|done].
    rewrite Hno, prefix_cons.
    destruct (Ascii.ascii_dec "-" "-"); [|done]. by rewrite Hfirst.
  - intros [[Hsep Hlow]%andb_true_iff Hrest]%andb_true_iff.
    apply negb_true_iff in Hsep. apply Ascii.eqb_eq in Hlow.
    destruct (IH false Hrest) as (Hall & Hno & _).
    split.
    + constructor; [|done]. unfold is_separator in Hsep.
      repeat split; [..|done]; intros ->; by vm_compute in Hsep.
    + rewrite Hno. split; [|intros _]; by rewrite prefix_dash_cons.
Qed.

(** A normalized name has no underscore, no dot and no upper-case ASCII
    letter, and never two dashes in a row. *)
Theorem normalize_alphabet name :
  Forall (λ a, a ≠ "_"%char ∧ a ≠ "."%char ∧ lower a = a)
         (list_ascii_of_string (normalize name)) ∧
  contains "--" (normalize name) = false.
Proof.
  destruct (normal_form_chars (normalize name) false
              (normalize_from_normal name false)) as (Hall & Hno & _).
  by split.
Qed.
End normal_names.

Section stripped_summaries.
Import RefreshMetadata.

Lemma lstrip_head s a r : lstrip s = String a r → isspace a = false.
Proof.
  induction s as [|b s IH]; simpl; [done|].
  destruct (isspace b) eqn:Hb; [done|]. by intros [= <- _].
Qed.

Lemma rstrip_head a s :
  isspace a = false → ∃ r, rstrip (String a s) = String a r.
Proof.
  intros Ha. simpl. destruct (rstrip s); rewrite ?Ha; eauto.
Qed.

Lemma rstrip_last s c :
  last (list_ascii_of_string (rstrip s)) = Some c → isspace c = false.
Proof.
  induction s as [|a s IH]; simpl; [done|].
  destruct (rstrip s) as [|b r] eqn:Hr.
  - destruct (isspace a) eqn:Ha; simpl; [done|]. by intros [= <-].
  - simpl in *. done.
Qed.

Lemma rstrip_idempotent s : rstrip (rstrip s) = rstrip s.
Proof.
  induction s as [|a s IH]; simpl; [done|].
  destruct (rstrip s) as [|b r] eqn:Hr.
  - destruct (isspace a) eqn:Ha; simpl; [done|]. by rewrite Ha.
  - change (rstrip (String a (String b r)))
      with (match rstrip (String b r) with
            | EmptyString => if isspace a then EmptyString else String a EmptyString
            | t => String a t
            end).
    by rewrite IH.
Qed.

(** [strip] leaves no white space at either end, and stripping twice is
    stripping once. *)
Theorem strip_spec s :
  strip (strip s) = strip s ∧
  (∀ a r, strip s = String a r → isspace a = false) ∧
  (∀ c, last (list_ascii_of_string (strip s)) = Some c → isspace c = false).
Proof.
  unfold strip.
  assert (Hhead : ∀ a r, rstrip (lstrip s) = String a r → isspace a = false).
  { intros a r. destruct (lstrip s) as [|b t] eqn:Hl; [done|].
    pose proof (lstrip_head s b t Hl) as Hb.
    destruct (rstrip_head b t Hb) as [r' ->]. by intros [= <- _]. }
  split; [|split; [done|apply rstrip_last]].
  pose proof (rstrip_idempotent (lstrip s)) as Hidem.
  destruct (rstrip (lstrip s)) as [|a r] eqn:Hr; [done|].
  assert (lstrip (String a r) = String a r) as ->; [|done].
  simpl. by rewrite (Hhead a r eq_refl).
Qed.
End stripped_summaries.

(** ** The records of the renderer *)

Section records.
Import RefreshMetadata.

Lemma assoc_dict_union_left k a b :
  assoc k b = None → assoc k (dict_union a b) = assoc k a.
Proof.
  intros Hb. unfold dict_union. rewrite assoc_app.
  assert (assoc k (filter (λ kv, assoc (fst kv) b = None) a) = assoc k a) as ->.
  { induction a as [|[k' v] a IH]; [done|]. rewrite filter_cons. simpl.
    destruct (String.eqb_spec k k') as [<-|Hne].
    - rewrite decide_True by done. simpl. by rewrite String.eqb_refl.
    - case_decide; simpl; [|done].
      by destruct (String.eqb_spec k k'). }
  by destruct (assoc k a).
Qed.

Lemma assoc_some_key k l v : assoc k l = Some v → k ∈ l.*1.
Proof.
  induction l as [|[k' v'] l IH]; simpl; [done|].
  destruct (String.eqb_spec k k') as [<-|]; [by left|].
  intros H. right. by apply IH.
Qed.

Lemma assoc_extra_fields_some k info v :
  assoc k (extra_fields info) = Some v → k ∈ EXTRA_KEYS ∧ truthy v = true.
Proof.
  unfold extra_fields. generalize EXTRA_KEYS. intros keys.
  induction keys as [|key keys IH]; simpl; [done|].
  destruct (truthy (default VNone (assoc key info))) eqn:Ht; simpl.
  - destruct (String.eqb_spec k key) as [->|].
    + intros [= <-]. split; [by left|done].
    + intros H. destruct (IH H). split; [by right|done].
  - intros H. destruct (IH H). split; [by right|done].
Qed.

(** The shape of what [render] yields. *)
Lemma render_yielded extension_data record :
  render extension_data = Yielded record →
  ∃ info n t items release_first releases,
    subscript extension_data "info" = Some info ∧
    subscript info "name" = Some (VStr n) ∧
    subscript info "summary" = Some (VStr t) ∧
    releases_items extension_data = Some items ∧
    releases_of items = Some (release_first :: releases) ∧
    ∃ extras_info,
      record = dict_union
                 [ ("name", VStr n);
                   ("name_normalized", VStr (normalize n));
                   ("summary", VStr (strip t));
                   ("releases", VInt (Z.of_nat (length (release_first :: releases))));
                   ("release_first", release_first);
                   ("release_latest",
                    default VNone (last (release_first :: releases))) ]
                 (extra_fields extras_info).
Proof.
  unfold render.
  destruct (subscript extension_data "info") as [info|] eqn:Hinfo; simpl; [|done].
  destruct (subscript info "name") as [name|] eqn:Hname; simpl; [|done].
  destruct name as [| | |n| |]; simpl; try done.
  destruct (subscript info "summary") as [summary|] eqn:Hsum; simpl; [|done].
  destruct summary as [| | |t| |]; simpl; try done.
  destruct (releases_items extension_data) as [items|] eqn:Hitems; simpl; [|done].
  destruct (releases_of items) as [[|release_first releases]|] eqn:Hrel;
    simpl; try done.
  intros [= <-]. exists info, n, t, items, release_first, releases.
  repeat split; try done. by eexists.
Qed.

(** The keys of a yielded record are the six fixed ones and keys of
    [EXTRA_KEYS] with a truthy value: a record has no ["license"], no
    ["description"], and, the first two keys of the list being written as
    one string, neither ["author"] nor ["author_email"]. *)
Theorem record_keys extension_data record k v :
  render extension_data = Yielded record →
  assoc k record = Some v →
  (k ∈ ["name"; "name_normalized"; "summary"; "releases"; "release_first";
        "release_latest"] ∨
   (k ∈ EXTRA_KEYS ∧ truthy v = true)) ∧
  k ∉ ["license"; "description"; "author"; "author_email"].
Proof.
  intros Hrender Hk.
  assert (Hcases : k ∈ ["name"; "name_normalized"; "summary"; "releases";
                        "release_first"; "release_latest"] ∨
                   (k ∈ EXTRA_KEYS ∧ truthy v = true)).
  { destruct (render_yielded extension_data record Hrender)
      as (info & n & t & items & first & releases & _ & _ & _ & _ & _ & extras & ->).
    revert Hk. destruct (assoc k (extra_fields extras)) as [v'|] eqn:Hextra.
    - unfold dict_union. rewrite assoc_app.
      destruct (assoc k (filter _ _)) as [v0|] eqn:Hbase.
      + intros _. left. apply assoc_some_key in Hbase.
        apply list_elem_of_fmap in Hbase as ([k0 v1] & -> & Hin).
        apply list_elem_of_filter in Hin as [_ Hin]. simpl.
        rewrite !elem_of_cons, elem_of_nil in Hin. rewrite !elem_of_cons.
        naive_solver.
      + rewrite Hextra. intros [= <-].
        apply assoc_extra_fields_some in Hextra. by right.
    - rewrite assoc_dict_union_left by done. intros Hbase. left.
      apply assoc_some_key in Hbase. simpl in Hbase.
      rewrite !elem_of_cons, elem_of_nil in Hbase. rewrite !elem_of_cons.
      naive_solver. }
  split; [done|]. unfold EXTRA_KEYS in Hcases.
  rewrite !elem_of_cons, !elem_of_nil in Hcases.
  rewrite !elem_of_cons, elem_of_nil. naive_solver.
Qed.
Lemma releases_of_versions items : ∀ releases,
  releases_of items = Some releases →
  (λ r, subscript r "version") <$> releases
  = (λ kv, Some (VStr (fst kv)))
      <$> filter (λ kv, has_file_not_yanked (snd kv) = true) items.
Proof.
  induction items as [|[ver all_files] items IH]; intros releases; simpl.
  - by intros [= <-].
  - destruct (iterate all_files) as [files|] eqn:Hit; simpl; [|done].
    destruct (not_yanked files) as [kept|] eqn:Hkept; simpl; [|done].
    destruct (releases_of items) as [rest|]; simpl; [|done].
    rewrite filter_cons. simpl.
    rewrite <- (iterate_not_yanked _ _ _ Hit Hkept).
    destruct (0 <? length kept)%nat; simpl.
    + destruct (last kept) as [last_file|]; simpl; [|done].
      destruct (subscript last_file "upload_time"); simpl; [|done].
      intros [= <-]. simpl. f_equal. by apply IH.
    + intros [= <-]. by apply IH.
Qed.

(** The releases of a record follow the order of the ["releases"] object:
    one per version with a file that is not yanked, ["release_first"] the
    first of them and ["release_latest"] the last. *)
Theorem releases_in_order extension_data record :
  render extension_data = Yielded record →
  ∃ items releases,
    releases_items extension_data = Some items ∧
    releases_of items = Some releases ∧
    (λ r, subscript r "version") <$> releases
    = (λ kv, Some (VStr (fst kv)))
        <$> filter (λ kv, has_file_not_yanked (snd kv) = true) items ∧
    assoc "release_first" record = head releases ∧
    assoc "release_latest" record = last releases.
Proof.
  intros Hrender.
  destruct (render_yielded extension_data record Hrender)
    as (info & n & t & items & first & releases & _ & _ & _ & Hitems & Hrel
        & extras & ->).
  exists items, (first :: releases). split; [done|]. split; [done|].
  split; [by apply releases_of_versions|].
  assert (Hlast : is_Some (last (first :: releases))) by (by apply last_is_Some).
  destruct Hlast as [x Hx]. rewrite Hx.
  split; (rewrite assoc_dict_union_left; [done|]; apply assoc_extra_fields;
          unfold EXTRA_KEYS; rewrite !elem_of_cons, elem_of_nil; naive_solver).
Qed.

Lemma iterate_over_failure dir fs bad after d before :
  fs !! joinpath (PACKAGE_INFO_CACHE dir) bad = Some (PackedData d) →
  render d = Failed →
  iterate_over dir fs (before ++ bad :: after)
  = (fst (iterate_over dir fs before), true).
Proof.
  intros Hfile Hfail. induction before as [|name before IH]; simpl.
  - by rewrite Hfile, Hfail.
  - destruct (fs !! joinpath (PACKAGE_INFO_CACHE dir) name)
      as [[|extension_data|]|]; try done.
    destruct (render extension_data); try done.
    rewrite IH. by destruct (iterate_over dir fs before).
Qed.

(** The generator stops at the first file it cannot render: the records of
    the files sorted before it are yielded, the files sorted after it are
    never read. *)
Theorem generator_stops_at_failure dir fs before bad after d :
  sorted (glob_msgpack (PACKAGE_INFO_CACHE dir) fs) = before ++ bad :: after →
  fs !! joinpath (PACKAGE_INFO_CACHE dir) bad = Some (PackedData d) →
  render d = Failed →
  iterate_pypi_cache dir fs = (fst (iterate_over dir fs before), true).
Proof.
  intros Hsorted Hfile Hfail. unfold iterate_pypi_cache. rewrite Hsorted.
  by apply (iterate_over_failure dir fs bad after d).
Qed.
End records.


Lemma record_keys_witness :
  ("home_page" ∈ ["name"; "name_normalized"; "summary"; "releases"; "release_first";
                  "release_latest"] ∨
   ("home_page" ∈ RefreshMetadata.EXTRA_KEYS ∧
    truthy (VStr "https://example.org") = true)) ∧
  "home_page" ∉ ["license"; "description"; "author"; "author_email"].
Proof.
  apply (record_keys Sample.released_json Sample.released_record
           "home_page" (VStr "https://example.org")); reflexivity.
Defined.

Lemma releases_in_order_witness :
  ∃ items releases,
    RefreshMetadata.releases_items Sample.released_json = Some items ∧
    RefreshMetadata.releases_of items = Some releases ∧
    (λ r, subscript r "version") <$> releases
    = (λ kv, Some (VStr (fst kv)))
        <$> filter (λ kv, RefreshMetadata.has_file_not_yanked (snd kv) = true) items ∧
    assoc "release_first" Sample.released_record = head releases ∧
    assoc "release_latest" Sample.released_record = last releases.
Proof.
  apply (releases_in_order Sample.released_json Sample.released_record).
  reflexivity.
Defined.

Lemma generator_stops_at_failure_witness :
  RefreshMetadata.iterate_pypi_cache Sample.cache Sample.broken_cache
  = (fst (RefreshMetadata.iterate_over Sample.cache Sample.broken_cache
            ["old.msgpack"]), true).
Proof.
  apply (generator_stops_at_failure Sample.cache Sample.broken_cache
           ["old.msgpack"] "pkg.msgpack" ["saltext-foo.msgpack"] Sample.odd_json);
    reflexivity.
Defined.
